(** * resume-hero: the two browser scripts, embedded and verified

    The repository holds two front-end scripts:
    - the calculator script (two numeric inputs, an Add button, POST /add);
    - [frontend/script.js], the resume page (file selection, POST
      /parse-resume, rendering of the parsed resume as HTML).

    Both are event handlers over a handful of DOM nodes.  The embedding
    keeps one record per page with a field for every DOM property the
    handlers read or write, and turns each handler into a function on that
    record.  JavaScript strings are [string]s (code units below 256, which
    covers every character the handlers inspect), exceptions are a
    [completion], and an [await] splits a handler into the part before the
    suspension and the part that runs when the promise settles. *)

From Stdlib Require Import String Ascii List Bool Arith NArith ZArith Lia.
From Stdlib Require Import DecimalString.
Import ListNotations.
Local Open Scope list_scope.
Local Open Scope string_scope.

(* ===================================================================== *)
(** * The JavaScript primitives the scripts use *)
(* ===================================================================== *)

Module Js.

(** ** Completions: a value or a thrown exception *)

Inductive exn : Type :=
| TypeError                      (* property read on undefined/null, failed fetch *)
| SyntaxError                    (* response.json() on a malformed body *)
| Error (message : string).      (* new Error(message) *)

Inductive completion (A : Type) : Type :=
| Normal (a : A)
| Throw (e : exn).
Arguments Normal {A} a.
Arguments Throw {A} e.

Definition bind {A B} (c : completion A) (k : A -> completion B) : completion B :=
  match c with
  | Normal a => k a
  | Throw e => Throw e
  end.

Declare Scope js_scope.
Delimit Scope js_scope with js.
Notation "x <- c ;; k" := (bind c (fun x => k))
  (at level 61, c at next level, right associativity) : js_scope.

(** ** Strings *)

(** The double quote of the HTML attributes. *)
Definition dquote : string := String (ascii_of_nat 34) EmptyString.

(** [s.includes(sub)] *)
Fixpoint includes (s sub : string) {struct s} : bool :=
  if prefix sub s then true
  else match s with
       | EmptyString => false
       | String _ r => includes r sub
       end.

(** [s.split(c)] for a one-character separator: never the empty list, the
    empty string splits into one empty part. *)
Fixpoint split (c : ascii) (s : string) : list string :=
  match s with
  | EmptyString => [EmptyString]
  | String a r =>
      if Ascii.eqb a c then EmptyString :: split c r
      else match split c r with
           | p :: ps => String a p :: ps
           | [] => [String a EmptyString]
           end
  end.

(** [parts.join(sep)] on an array of strings. *)
Definition join (sep : string) (parts : list string) : string :=
  String.concat sep parts.

(** [parts.slice(1)] *)
Definition slice1 {A} (parts : list A) : list A := tl parts.

(** Truthiness of a value that is a string, null or undefined: [None]
    stands for null and undefined, and the empty string is falsy too. *)
Definition truthy (v : option string) : bool :=
  match v with
  | Some (String _ _) => true
  | _ => false
  end.

(** [`${v}`] for such a value. *)
Definition to_string (v : option string) : string :=
  match v with
  | Some s => s
  | None => "undefined"
  end.

(** [values.filter(Boolean)] *)
Definition filter_Boolean (values : list (option string)) : list (option string) :=
  filter truthy values.

(** [values.join(sep)]: null and undefined elements contribute the empty
    string. *)
Definition join_values (sep : string) (values : list (option string)) : string :=
  join sep (map (fun v => match v with Some s => s | None => EmptyString end) values).

(** [v.length] and [v.forEach(f)] on a value that is an array, null or
    undefined: reading a property of null or undefined throws. *)
Definition length_of {A} (v : option (list A)) : completion nat :=
  match v with
  | Some l => Normal (List.length l)
  | None => Throw TypeError
  end.

Fixpoint forEach_list {A S} (f : A -> S -> completion S) (l : list A) (st : S) : completion S :=
  match l with
  | [] => Normal st
  | x :: r => bind (f x st) (forEach_list f r)
  end.

Definition forEach {A S} (v : option (list A)) (f : A -> S -> completion S) (st : S) : completion S :=
  match v with
  | Some l => forEach_list f l st
  | None => Throw TypeError
  end.

(** ** Character classes *)

Definition is_digit (c : ascii) : bool :=
  (48 <=? nat_of_ascii c)%nat && (nat_of_ascii c <=? 57)%nat.

Definition digit_value (c : ascii) : N := N.of_nat (nat_of_ascii c - 48).

(** WhiteSpace and LineTerminator code units below 256: TAB, LF, VT, FF,
    CR, SP and NBSP. *)
Definition is_whitespace (c : ascii) : bool :=
  let n := nat_of_ascii c in
  ((9 <=? n)%nat && (n <=? 13)%nat) || (n =? 32)%nat || (n =? 160)%nat.

Fixpoint trimStart (s : string) : string :=
  match s with
  | EmptyString => EmptyString
  | String c r => if is_whitespace c then trimStart r else s
  end.

Fixpoint trimEnd (s : string) : string :=
  match s with
  | EmptyString => EmptyString
  | String c r =>
      match trimEnd r with
      | EmptyString => if is_whitespace c then EmptyString else String c EmptyString
      | r' => String c r'
      end
  end.

(** [s.trim()] *)
Definition trim (s : string) : string := trimEnd (trimStart s).

(** ** Numbers and [parseFloat]

    Only the class of a number matters to the scripts ([isNaN]); a finite
    number is kept as the exact decimal it was read from,
    (-1)^negative * significand * 10^exponent, standing for the double
    nearest to it. *)

Inductive number : Type :=
| NaN
| Infinity (negative : bool)
| Finite (negative : bool) (significand : N) (exponent : Z).

Definition isNaN (x : number) : bool :=
  match x with NaN => true | _ => false end.

Definition isFinite (x : number) : bool :=
  match x with Finite _ _ _ => true | _ => false end.

(** Rounding to the nearest double overflows to an infinity from
    2^1024 - 2^970 on, the midpoint between the largest double and 2^1024. *)
Definition overflow_threshold : Z := (2 ^ 1024 - 2 ^ 970)%Z.

Definition overflows (m : N) (e : Z) : bool :=
  if (0 <=? e)%Z then (overflow_threshold <=? Z.of_N m * 10 ^ e)%Z
  else (overflow_threshold * 10 ^ (- e) <=? Z.of_N m)%Z.

Definition number_value (negative : bool) (m : N) (e : Z) : number :=
  if overflows m e then Infinity negative else Finite negative m e.

(** The longest run of DecimalDigits at the head of [s]: the value read
    (continuing [acc]), how many digits there were, and the rest. *)
Fixpoint read_digits (s : string) (acc : N) (n : nat) : N * nat * string :=
  match s with
  | String c r =>
      if is_digit c then read_digits r (10 * acc + digit_value c)%N (S n)
      else (acc, n, s)
  | EmptyString => (acc, n, s)
  end.

(** The value of the ExponentPart [s] starts with, 0 when it starts with
    none: e or E, an optional sign, at least one digit. *)
Definition exponent_part (s : string) : Z :=
  match s with
  | String c r =>
      if Ascii.eqb c "e" || Ascii.eqb c "E" then
        let '(negative, r') :=
          match r with
          | String sign r' =>
              if Ascii.eqb sign "+" then (false, r')
              else if Ascii.eqb sign "-" then (true, r')
              else (false, r)
          | EmptyString => (false, r)
          end in
        let '(v, n, _) := read_digits r' 0%N 0%nat in
        if (n =? 0)%nat then 0%Z
        else if negative then (- Z.of_N v)%Z else Z.of_N v
      else 0%Z
  | EmptyString => 0%Z
  end.

(** The longest prefix of [s] that is a StrUnsignedDecimalLiteral:
    Infinity, digits [. digits] [exponent], or . digits [exponent]. *)
Definition str_unsigned_decimal_literal (negative : bool) (s : string) : number :=
  if prefix "Infinity" s then Infinity negative
  else
    let '(i, ni, r) := read_digits s 0%N 0%nat in
    match r with
    | String c r' =>
        if Ascii.eqb c "." then
          let '(m, nf, r'') := read_digits r' i 0%nat in
          if (ni =? 0)%nat && (nf =? 0)%nat then NaN
          else number_value negative m (exponent_part r'' - Z.of_nat nf)
        else if (ni =? 0)%nat then NaN
        else number_value negative i (exponent_part r)
    | EmptyString =>
        if (ni =? 0)%nat then NaN
        else number_value negative i 0
    end.

(** [parseFloat(s)]: leading white space is skipped, then the longest
    prefix that is a StrDecimalLiteral is read; NaN when there is none. *)
Definition parseFloat (s : string) : number :=
  match trimStart s with
  | String c r =>
      if Ascii.eqb c "+" then str_unsigned_decimal_literal false r
      else if Ascii.eqb c "-" then str_unsigned_decimal_literal true r
      else str_unsigned_decimal_literal false (String c r)
  | EmptyString => NaN
  end.

(** ** [JSON.stringify] of a number

    NaN and the infinities are written as null.  Any other number is
    written as a number, kept here as the decimal that stands for it;
    which digits the text shows is not modelled. *)

Inductive json_number : Type :=
| json_null
| json_finite (negative : bool) (significand : N) (exponent : Z).

Definition JSON_stringify_number (x : number) : json_number :=
  match x with
  | Finite negative m e => json_finite negative m e
  | NaN | Infinity _ => json_null
  end.

(** [`${n}`] for a natural number (the status of a response). *)
Definition nat_to_string (n : nat) : string :=
  NilEmpty.string_of_uint (Nat.to_uint n).

(** [response.ok] *)
Definition status_ok (status : nat) : bool :=
  (200 <=? status)%nat && (status <=? 299)%nat.

End Js.

Import Js.
Local Open Scope js_scope.

(* ===================================================================== *)
(** * The calculator script *)
(* ===================================================================== *)

Module Calculator.

Definition API_BASE_URL : string := "http://localhost:8000".

(** The two inputs an event can target. *)
Inductive input : Type := number1Input | number2Input.

(** The one request the script sends.  Its body is the text
    [JSON.stringify({number1: num1, number2: num2})]: an object with the
    two properties, each as [JSON.stringify] writes a number. *)
Record request : Type := mkRequest {
  url : string;
  method : string;
  content_type : string;
  body_number1 : json_number;
  body_number2 : json_number
}.

(** The DOM properties the script reads and writes, and the requests it
    has handed to [fetch] so far, oldest first. *)
Record page : Type := mkPage {
  number1Input_value : string;
  number2Input_value : string;
  addButton_disabled : bool;
  addButton_textContent : string;
  resultDiv_textContent : string;
  resultDiv_className : string;
  fetched : list request
}.

Definition value (i : input) (s : page) : string :=
  match i with
  | number1Input => number1Input_value s
  | number2Input => number2Input_value s
  end.

Definition set_value (i : input) (v : string) (s : page) : page :=
  match i with
  | number1Input =>
      mkPage v (number2Input_value s) (addButton_disabled s) (addButton_textContent s)
             (resultDiv_textContent s) (resultDiv_className s) (fetched s)
  | number2Input =>
      mkPage (number1Input_value s) v (addButton_disabled s) (addButton_textContent s)
             (resultDiv_textContent s) (resultDiv_className s) (fetched s)
  end.

Definition set_addButton_disabled (b : bool) (s : page) : page :=
  mkPage (number1Input_value s) (number2Input_value s) b (addButton_textContent s)
         (resultDiv_textContent s) (resultDiv_className s) (fetched s).

Definition set_addButton_textContent (t : string) (s : page) : page :=
  mkPage (number1Input_value s) (number2Input_value s) (addButton_disabled s) t
         (resultDiv_textContent s) (resultDiv_className s) (fetched s).

Definition set_resultDiv (text className : string) (s : page) : page :=
  mkPage (number1Input_value s) (number2Input_value s) (addButton_disabled s)
         (addButton_textContent s) text className (fetched s).

(** [fetch(url, init)]: the request leaves the page. *)
Definition fetch (r : request) (s : page) : page :=
  mkPage (number1Input_value s) (number2Input_value s) (addButton_disabled s)
         (addButton_textContent s) (resultDiv_textContent s) (resultDiv_className s)
         (fetched s ++ [r]).

(** [value.replace(/[^0-9.-]/g, '')] *)
Definition numeric_char (c : ascii) : bool :=
  is_digit c || Ascii.eqb c "." || Ascii.eqb c "-".

Fixpoint replace_non_numeric (v : string) : string :=
  match v with
  | EmptyString => EmptyString
  | String c r =>
      if numeric_char c then String c (replace_non_numeric r)
      else replace_non_numeric r
  end.

(** The value [validateInput] writes back into the input. *)
Definition sanitized (v : string) : string :=
  let numericValue := replace_non_numeric v in
  let parts := split "." numericValue in
  if (2 <? List.length parts)%nat then
    hd EmptyString parts ++ "." ++ join EmptyString (slice1 parts)
  else numericValue.

Definition updateButtonState (s : page) : page :=
  let num1 := parseFloat (number1Input_value s) in
  let num2 := parseFloat (number2Input_value s) in
  if negb (isNaN num1) && negb (isNaN num2)
     && negb (String.eqb (trim (number1Input_value s)) EmptyString)
     && negb (String.eqb (trim (number2Input_value s)) EmptyString)
  then set_addButton_disabled false s
  else set_addButton_disabled true s.

(** The input event on [target]; the browser has already put the edited
    text into [target.value]. *)
Definition validateInput (target : input) (s : page) : page :=
  let s := set_value target (sanitized (value target s)) s in
  updateButtonState s.

Definition showResult (result : string) (s : page) : page :=
  set_resultDiv ("Result: " ++ result) "result show" s.

Definition showError (message : string) (s : page) : page :=
  set_resultDiv message "result show error" s.

(** What the awaited [fetch] and [response.json()] deliver.  [data] is
    the parsed body: [None] for a body that is JSON null, otherwise the
    text of [`${data.result}`]. *)
Inductive fetch_outcome : Type :=
| Rejected (e : exn)                                    (* fetch itself failed *)
| Responded (status : nat) (json : completion (option string)).

(** Where a call of the async handler stands when it gives control back. *)
Inductive progress : Type :=
| Returned        (* the handler ran to its end *)
| Awaiting.       (* suspended at [await fetch(...)] *)

(** [handleAddition] up to its first [await]. *)
Definition handleAddition (s : page) : page * progress :=
  let num1 := parseFloat (number1Input_value s) in
  let num2 := parseFloat (number2Input_value s) in
  if isNaN num1 || isNaN num2 then
    (showError "Please enter valid numbers" s, Returned)
  else
    let s := set_addButton_disabled true s in
    let s := set_addButton_textContent "Calculating..." s in
    let s := fetch (mkRequest (API_BASE_URL ++ "/add") "POST" "application/json"
                              (JSON_stringify_number num1)
                              (JSON_stringify_number num2)) s in
    (s, Awaiting).

(** The [try] block from the point where the awaited fetch settles.
    Nothing touches the page between [await fetch] and
    [await response.json()], so the two suspensions are taken as one. *)
Definition handleAddition_try (o : fetch_outcome) (s : page) : completion page :=
  match o with
  | Rejected e => Throw e
  | Responded status json =>
      if negb (status_ok status) then
        Throw (Error ("HTTP error! status: " ++ nat_to_string status))
      else
        data <- json ;;
        match data with
        | None => Throw TypeError
        | Some result => Normal (showResult result s)
        end
  end.

(** [handleAddition] from the settled fetch to its end: [try], [catch],
    [finally]. *)
Definition handleAddition_resume (o : fetch_outcome) (s : page) : page :=
  let s :=
    match handleAddition_try o s with
    | Normal s' => s'
    | Throw _ => showError "Failed to calculate. Please check if the server is running." s
    end in
  let s := set_addButton_disabled false s in
  let s := set_addButton_textContent "Add" s in
  updateButtonState s.

Definition handleKeyPress (key : string) (s : page) : page * progress :=
  if String.eqb key "Enter" then handleAddition s else (s, Returned).

(** Everything that can happen to the page. *)
Inductive event : Type :=
| Edit (target : input) (raw : string)   (* the user changes the text, then the input event *)
| KeyPress (key : string)
| Click                                  (* on the Add button, when it is enabled *)
| Settle (o : fetch_outcome).            (* a request settles *)

Definition step (e : event) (s : page) : page :=
  match e with
  | Edit target raw => validateInput target (set_value target raw s)
  | KeyPress key => fst (handleKeyPress key s)
  | Click => if addButton_disabled s then s else fst (handleAddition s)
  | Settle o => handleAddition_resume o s
  end.

Definition run (es : list event) (s : page) : page :=
  fold_left (fun s e => step e s) es s.

(** A key typed at the end of the text of [target]. *)
Definition keystroke (target : input) (key : ascii) (s : page) : page :=
  step (Edit target (value target s ++ String key EmptyString)) s.

Fixpoint type_keys (target : input) (keys : string) (s : page) : page :=
  match keys with
  | EmptyString => s
  | String key r => type_keys target r (keystroke target key s)
  end.

(** ** The sanitization as the specification words it

    Strip the characters outside [0-9.-], then keep the first decimal
    point and drop every later one. *)

Fixpoint drop_dots (v : string) : string :=
  match v with
  | EmptyString => EmptyString
  | String c r => if Ascii.eqb c "." then drop_dots r else String c (drop_dots r)
  end.

Fixpoint keep_first_dot (v : string) : string :=
  match v with
  | EmptyString => EmptyString
  | String c r =>
      if Ascii.eqb c "." then String c (drop_dots r) else String c (keep_first_dot r)
  end.

(** ** Shapes of a field value *)

Fixpoint all_chars (p : ascii -> bool) (v : string) : bool :=
  match v with
  | EmptyString => true
  | String c r => p c && all_chars p r
  end.

Fixpoint count_char (c : ascii) (v : string) : nat :=
  match v with
  | EmptyString => 0
  | String a r => (if Ascii.eqb a c then 1 else 0) + count_char c r
  end.

(** Only characters of [0-9.-] and at most one decimal point. *)
Definition numeric_shape (v : string) : Prop :=
  all_chars numeric_char v = true /\ (count_char "." v <= 1)%nat.

(** No minus sign after the first character. *)
Definition minus_only_leading (v : string) : Prop :=
  match v with
  | EmptyString => True
  | String _ r => count_char "-" r = 0%nat
  end.

(** What [updateButtonState] tests on a field value. *)
Definition parses (v : string) : bool := negb (isNaN (parseFloat v)).

Definition nonblank (v : string) : bool := negb (String.eqb (trim v) EmptyString).

Definition inputs_valid (s : page) : bool :=
  parses (number1Input_value s) && parses (number2Input_value s)
  && nonblank (number1Input_value s) && nonblank (number2Input_value s).

(** A text [parseFloat] reads a number from: after leading white space
    and an optional sign comes Infinity, a digit, or a point and a digit. *)
Definition starts_unsigned (v : string) : bool :=
  prefix "Infinity" v
  || match v with
     | String c r =>
         is_digit c
         || (Ascii.eqb c "." && match r with String d _ => is_digit d | EmptyString => false end)
     | EmptyString => false
     end.

Definition starts_numeric (v : string) : bool :=
  match trimStart v with
  | String c r =>
      if Ascii.eqb c "+" || Ascii.eqb c "-" then starts_unsigned r
      else starts_unsigned (String c r)
  | EmptyString => false
  end.

(** The shape the specification claims for a sanitized value, and the
    condition it claims for the enabled button. *)
Definition claimed_shape (v : string) : Prop :=
  numeric_shape v /\ minus_only_leading v.

Definition inputs_finite (s : page) : bool :=
  isFinite (parseFloat (number1Input_value s))
  && isFinite (parseFloat (number2Input_value s))
  && nonblank (number1Input_value s) && nonblank (number2Input_value s).

(** A page to run examples on: empty inputs, the button disabled, nothing
    sent. *)
Definition example_page : page :=
  mkPage EmptyString EmptyString true "Add" EmptyString "result" [].

(** A page with 5 and 3 typed in. *)
Definition page_with_numbers : page :=
  mkPage "5" "3" false "Add" EmptyString "result" [].

(** A one followed by [n] zeros. *)
Definition one_and_zeros (n : nat) : string :=
  String "1" (string_of_list_ascii (repeat "0"%char n)).

(** ** More observations on the calculator *)



(** The request [handleAddition] builds for a pair of numbers. *)
Definition add_request (num1 num2 : number) : request :=
  mkRequest (API_BASE_URL ++ "/add") "POST" "application/json"
            (JSON_stringify_number num1) (JSON_stringify_number num2).

(** A POST to /add with a JSON body. *)
Definition well_formed_request (r : request) : Prop :=
  url r = API_BASE_URL ++ "/add"
  /\ method r = "POST"
  /\ content_type r = "application/json".

(** A page with a one and 309 zeros in the first field and 1 in the
    second. *)
Definition page_with_overflow : page :=
  mkPage (String "1" (string_of_list_ascii (repeat "0"%char 309))) "1"
         false "Add" EmptyString "result" [].

(** The result line holds [text] with the classes [className]. *)
Definition result_line (text className : string) (s : page) : Prop :=
  resultDiv_textContent s = text /\ resultDiv_className s = className.

End Calculator.

(* ===================================================================== *)
(** * The resume page: [frontend/script.js] *)
(* ===================================================================== *)

Module Resume.

Definition API_BASE_URL : string := "http://localhost:8000".

(** ** The payload

    The object under [resume_data].  A property that holds a string when
    it is there is an [option string], [None] for null and for a missing
    property; a property that holds an array when it is there is an
    [option (list _)] in the same way.  The properties the script prints
    without a test are plain strings. *)

Record ContactInfo : Type := mkContact { contact_value : string }.

Record Education : Type := mkEducation {
  edu_institution : option string;
  edu_degree : option string;
  edu_field_of_study : option string;
  edu_start_date : option string;
  edu_end_date : option string
}.

Record WorkExperience : Type := mkWork {
  work_company : option string;
  work_position : option string;
  work_start_date : option string;
  work_end_date : option string;
  work_description : option string
}.

Record Skill : Type := mkSkill { skill_name : string }.

Record Project : Type := mkProject {
  project_name : option string;
  project_description : option string;
  project_technologies : option (list string)
}.

Record Certification : Type := mkCertification {
  cert_name : option string;
  cert_issuer : option string
}.

Record Language : Type := mkLanguage { lang_name : string }.

Record ResumeData : Type := mkResumeData {
  full_name : option string;
  contact_info : option (list ContactInfo);
  summary : option string;
  education : option (list Education);
  work_experience : option (list WorkExperience);
  skills : option (list Skill);
  projects : option (list Project);
  certifications : option (list Certification);
  languages : option (list Language)
}.

(** ** The markup *)

Definition div_open (class : string) : string :=
  "<div class=" ++ dquote ++ class ++ dquote ++ ">".

Definition span_open (class : string) : string :=
  "<span class=" ++ dquote ++ class ++ dquote ++ ">".

(** The line break and indentation inside the one multi-line template. *)
Definition newline_indent (n : nat) : string :=
  String (ascii_of_nat 10) (string_of_list_ascii (repeat " "%char n)).

(** [<div><span class="data-label">label</span> text</div>] *)
Definition labelled_line (label text : string) : string :=
  "<div>" ++ span_open "data-label" ++ label ++ "</span> " ++ text ++ "</div>".

(** The test [start || end] and the text
    [[start, end].filter(Boolean).join(' - ')] of a date line. *)
Definition dates_shown (start_date end_date : option string) : bool :=
  truthy start_date || truthy end_date.

Definition dates_text (start_date end_date : option string) : string :=
  join_values " - " (filter_Boolean [start_date; end_date]).

(** ** [displayResumeData], block by block

    Each block is the code under one of the comments of the function:
    it takes the [html] built so far and gives the [html] after it. *)

Definition personal_information (data : ResumeData) (html : string) : completion string :=
  shown <- (if truthy (full_name data) then Normal true
            else n <- length_of (contact_info data) ;; Normal (0 <? n)%nat) ;;
  if (shown : bool) then
    let html := html ++ div_open "data-section" in
    let html := html ++ div_open "section-title" ++ "Personal Information</div>" in
    let html :=
      if truthy (full_name data) then
        html ++ div_open "data-item" ++ newline_indent 16
             ++ span_open "data-label" ++ "Name:</span>" ++ newline_indent 16
             ++ span_open "data-value" ++ to_string (full_name data) ++ "</span>"
             ++ newline_indent 12 ++ "</div>"
      else html in
    n <- length_of (contact_info data) ;;
    html <- (if (0 <? n)%nat then
               let html := html ++ div_open "data-item" in
               let html := html ++ span_open "data-label" ++ "Contact:</span>" in
               let html := html ++ div_open "contact-info" in
               html <- forEach (contact_info data) (fun contact html =>
                         Normal (html ++ span_open "contact-item"
                                      ++ contact_value contact ++ "</span>")) html ;;
               Normal (html ++ "</div></div>")
             else Normal html) ;;
    Normal (html ++ "</div>")
  else Normal html.

Definition summary_block (data : ResumeData) (html : string) : completion string :=
  if truthy (summary data) then
    let html := html ++ div_open "data-section" in
    let html := html ++ div_open "section-title" ++ "Summary</div>" in
    let html := html ++ div_open "data-item" ++ to_string (summary data) ++ "</div>" in
    Normal (html ++ "</div>")
  else Normal html.

Definition education_entry (edu : Education) (html : string) : completion string :=
  let html := html ++ div_open "data-item" in
  let html := if truthy (edu_institution edu)
              then html ++ labelled_line "Institution:" (to_string (edu_institution edu))
              else html in
  let html := if truthy (edu_degree edu)
              then html ++ labelled_line "Degree:" (to_string (edu_degree edu))
              else html in
  let html := if truthy (edu_field_of_study edu)
              then html ++ labelled_line "Field:" (to_string (edu_field_of_study edu))
              else html in
  let html := if dates_shown (edu_start_date edu) (edu_end_date edu)
              then let dates := dates_text (edu_start_date edu) (edu_end_date edu) in
                   html ++ labelled_line "Dates:" dates
              else html in
  Normal (html ++ "</div>").

Definition education_block (data : ResumeData) (html : string) : completion string :=
  n <- length_of (education data) ;;
  if (0 <? n)%nat then
    let html := html ++ div_open "data-section" in
    let html := html ++ div_open "section-title" ++ "Education</div>" in
    html <- forEach (education data) education_entry html ;;
    Normal (html ++ "</div>")
  else Normal html.

Definition work_entry (work : WorkExperience) (html : string) : completion string :=
  let html := html ++ div_open "data-item" in
  let html := if truthy (work_company work)
              then html ++ labelled_line "Company:" (to_string (work_company work))
              else html in
  let html := if truthy (work_position work)
              then html ++ labelled_line "Position:" (to_string (work_position work))
              else html in
  let html := if dates_shown (work_start_date work) (work_end_date work)
              then let dates := dates_text (work_start_date work) (work_end_date work) in
                   html ++ labelled_line "Dates:" dates
              else html in
  let html := if truthy (work_description work)
              then html ++ labelled_line "Description:" (to_string (work_description work))
              else html in
  Normal (html ++ "</div>").

Definition work_experience_block (data : ResumeData) (html : string) : completion string :=
  n <- length_of (work_experience data) ;;
  if (0 <? n)%nat then
    let html := html ++ div_open "data-section" in
    let html := html ++ div_open "section-title" ++ "Work Experience</div>" in
    html <- forEach (work_experience data) work_entry html ;;
    Normal (html ++ "</div>")
  else Normal html.

Definition skills_block (data : ResumeData) (html : string) : completion string :=
  n <- length_of (skills data) ;;
  if (0 <? n)%nat then
    let html := html ++ div_open "data-section" in
    let html := html ++ div_open "section-title" ++ "Skills</div>" in
    let html := html ++ div_open "data-item" in
    let html := html ++ div_open "skills-list" in
    html <- forEach (skills data) (fun skill html =>
              Normal (html ++ span_open "skill-tag" ++ skill_name skill ++ "</span>")) html ;;
    Normal (html ++ "</div></div></div>")
  else Normal html.

Definition project_entry (project : Project) (html : string) : completion string :=
  let html := html ++ div_open "data-item" in
  let html := if truthy (project_name project)
              then html ++ labelled_line "Project:" (to_string (project_name project))
              else html in
  let html := if truthy (project_description project)
              then html ++ labelled_line "Description:" (to_string (project_description project))
              else html in
  n <- length_of (project_technologies project) ;;
  html <- (if (0 <? n)%nat then
             let html := html ++ "<div>" ++ span_open "data-label" ++ "Technologies:</span> " in
             technologies <- match project_technologies project with
                             | Some l => Normal (join ", " l)
                             | None => Throw TypeError
                             end ;;
             let html := html ++ technologies in
             Normal (html ++ "</div>")
           else Normal html) ;;
  Normal (html ++ "</div>").

Definition projects_block (data : ResumeData) (html : string) : completion string :=
  n <- length_of (projects data) ;;
  if (0 <? n)%nat then
    let html := html ++ div_open "data-section" in
    let html := html ++ div_open "section-title" ++ "Projects</div>" in
    html <- forEach (projects data) project_entry html ;;
    Normal (html ++ "</div>")
  else Normal html.

Definition certification_entry (cert : Certification) (html : string) : completion string :=
  let html := html ++ div_open "data-item" in
  let html := if truthy (cert_name cert)
              then html ++ labelled_line "Certification:" (to_string (cert_name cert))
              else html in
  let html := if truthy (cert_issuer cert)
              then html ++ labelled_line "Issuer:" (to_string (cert_issuer cert))
              else html in
  Normal (html ++ "</div>").

Definition certifications_block (data : ResumeData) (html : string) : completion string :=
  n <- length_of (certifications data) ;;
  if (0 <? n)%nat then
    let html := html ++ div_open "data-section" in
    let html := html ++ div_open "section-title" ++ "Certifications</div>" in
    html <- forEach (certifications data) certification_entry html ;;
    Normal (html ++ "</div>")
  else Normal html.

Definition languages_block (data : ResumeData) (html : string) : completion string :=
  n <- length_of (languages data) ;;
  if (0 <? n)%nat then
    let html := html ++ div_open "data-section" in
    let html := html ++ div_open "section-title" ++ "Languages</div>" in
    let html := html ++ div_open "data-item" in
    html <- forEach (languages data) (fun lang html =>
              Normal (html ++ span_open "skill-tag" ++ lang_name lang ++ "</span>")) html ;;
    Normal (html ++ "</div></div>")
  else Normal html.

(** The [html] the function has built when it reaches the assignment to
    [resumeData.innerHTML].  [data] is the argument as passed: [None]
    when [resume_data] is null or missing, and then the first property
    read throws. *)
Definition displayResumeData_html (data : option ResumeData) : completion string :=
  match data with
  | None => Throw TypeError
  | Some data =>
      let html := EmptyString in
      html <- personal_information data html ;;
      html <- summary_block data html ;;
      html <- education_block data html ;;
      html <- work_experience_block data html ;;
      html <- skills_block data html ;;
      html <- projects_block data html ;;
      html <- certifications_block data html ;;
      html <- languages_block data html ;;
      Normal html
  end.

(** ** The rendering as the specification words it

    One labelled section per non-empty category, in a fixed order; inside
    a section the entries in the order received, each optional property
    only when it is there. *)

Inductive category : Type :=
| PersonalInformation | Summary | EducationCategory | WorkExperienceCategory
| Skills | Projects | Certifications | Languages.

Definition categories : list category :=
  [PersonalInformation; Summary; EducationCategory; WorkExperienceCategory;
   Skills; Projects; Certifications; Languages].

Definition title (c : category) : string :=
  match c with
  | PersonalInformation => "Personal Information"
  | Summary => "Summary"
  | EducationCategory => "Education"
  | WorkExperienceCategory => "Work Experience"
  | Skills => "Skills"
  | Projects => "Projects"
  | Certifications => "Certifications"
  | Languages => "Languages"
  end.

(** The entries of an array property; none when the property is missing. *)
Definition entries {A} (v : option (list A)) : list A :=
  match v with
  | Some l => l
  | None => []
  end.

Definition has_entries {A} (v : option (list A)) : bool :=
  match entries v with
  | [] => false
  | _ :: _ => true
  end.

Definition nonempty (data : ResumeData) (c : category) : bool :=
  match c with
  | PersonalInformation => truthy (full_name data) || has_entries (contact_info data)
  | Summary => truthy (summary data)
  | EducationCategory => has_entries (education data)
  | WorkExperienceCategory => has_entries (work_experience data)
  | Skills => has_entries (skills data)
  | Projects => has_entries (projects data)
  | Certifications => has_entries (certifications data)
  | Languages => has_entries (languages data)
  end.

Definition optional_line (label : string) (v : option string) : string :=
  if truthy v then labelled_line label (to_string v) else EmptyString.

(** The date line: start and end joined by a dash, a side that is not
    there left out, no line when neither is there. *)
Definition date_line (start_date end_date : option string) : string :=
  match truthy start_date, truthy end_date with
  | true, true =>
      labelled_line "Dates:" (to_string start_date ++ " - " ++ to_string end_date)
  | true, false => labelled_line "Dates:" (to_string start_date)
  | false, true => labelled_line "Dates:" (to_string end_date)
  | false, false => EmptyString
  end.

Definition all_of {A} (item : A -> string) (l : list A) : string :=
  String.concat EmptyString (map item l).

Definition education_item (edu : Education) : string :=
  div_open "data-item"
  ++ optional_line "Institution:" (edu_institution edu)
  ++ optional_line "Degree:" (edu_degree edu)
  ++ optional_line "Field:" (edu_field_of_study edu)
  ++ date_line (edu_start_date edu) (edu_end_date edu)
  ++ "</div>".

Definition work_item (work : WorkExperience) : string :=
  div_open "data-item"
  ++ optional_line "Company:" (work_company work)
  ++ optional_line "Position:" (work_position work)
  ++ date_line (work_start_date work) (work_end_date work)
  ++ optional_line "Description:" (work_description work)
  ++ "</div>".

Definition project_item (project : Project) : string :=
  div_open "data-item"
  ++ optional_line "Project:" (project_name project)
  ++ optional_line "Description:" (project_description project)
  ++ (if has_entries (project_technologies project)
      then "<div>" ++ span_open "data-label" ++ "Technologies:</span> "
           ++ join ", " (entries (project_technologies project)) ++ "</div>"
      else EmptyString)
  ++ "</div>".

Definition certification_item (cert : Certification) : string :=
  div_open "data-item"
  ++ optional_line "Certification:" (cert_name cert)
  ++ optional_line "Issuer:" (cert_issuer cert)
  ++ "</div>".

Definition section_body (data : ResumeData) (c : category) : string :=
  match c with
  | PersonalInformation =>
      (if truthy (full_name data) then
         div_open "data-item" ++ newline_indent 16
         ++ span_open "data-label" ++ "Name:</span>" ++ newline_indent 16
         ++ span_open "data-value" ++ to_string (full_name data) ++ "</span>"
         ++ newline_indent 12 ++ "</div>"
       else EmptyString)
      ++ (if has_entries (contact_info data) then
            div_open "data-item" ++ span_open "data-label" ++ "Contact:</span>"
            ++ div_open "contact-info"
            ++ all_of (fun contact => span_open "contact-item" ++ contact_value contact
                                      ++ "</span>") (entries (contact_info data))
            ++ "</div></div>"
          else EmptyString)
  | Summary => div_open "data-item" ++ to_string (summary data) ++ "</div>"
  | EducationCategory => all_of education_item (entries (education data))
  | WorkExperienceCategory => all_of work_item (entries (work_experience data))
  | Skills =>
      div_open "data-item" ++ div_open "skills-list"
      ++ all_of (fun skill => span_open "skill-tag" ++ skill_name skill ++ "</span>")
                (entries (skills data))
      ++ "</div></div>"
  | Projects => all_of project_item (entries (projects data))
  | Certifications => all_of certification_item (entries (certifications data))
  | Languages =>
      div_open "data-item"
      ++ all_of (fun lang => span_open "skill-tag" ++ lang_name lang ++ "</span>")
                (entries (languages data))
      ++ "</div>"
  end.

Definition section (data : ResumeData) (c : category) : string :=
  div_open "data-section"
  ++ div_open "section-title" ++ title c ++ "</div>"
  ++ section_body data c
  ++ "</div>".

(** What a category contributes to the output: its section, or nothing. *)
Definition emitted (data : ResumeData) (c : category) : string :=
  if nonempty data c then section data c else EmptyString.

Definition sections (data : ResumeData) : string :=
  String.concat EmptyString (map (section data) (filter (nonempty data) categories)).

(** Every array property the renderer reads is there: the seven of the
    payload and [technologies] of every project. *)
Definition is_some {A} (v : option A) : bool :=
  match v with Some _ => true | None => false end.

Definition technologies_present (project : Project) : bool :=
  is_some (project_technologies project).

Definition arrays_present (data : ResumeData) : bool :=
  is_some (contact_info data) && is_some (education data)
  && is_some (work_experience data) && is_some (skills data)
  && is_some (projects data) && is_some (certifications data)
  && is_some (languages data)
  && forallb technologies_present (entries (projects data)).

(** ** Example payloads *)

(** Empty [education], one work entry. *)
Definition acme_resume : ResumeData :=
  mkResumeData None (Some []) None (Some [])
               (Some [mkWork (Some "Acme") (Some "Eng") None None None])
               (Some []) (Some []) (Some []) (Some []).

(** A name, and no [education] property at all. *)
Definition resume_without_education : ResumeData :=
  mkResumeData (Some "Ada") (Some []) None None
               (Some []) (Some []) (Some []) (Some []) (Some []).

(** ** The page *)

(** A [File] of the browser: the three properties the script reads. *)
Record File : Type := mkFile {
  file_name : string;
  file_type : string;
  file_size : N
}.

(** The one request the script sends: a multipart form, one (field name,
    file) pair per [formData.append]. *)
Record request : Type := mkRequest {
  url : string;
  method : string;
  formData : list (string * File)
}.

(** The module-level [selectedFile], the DOM properties the handlers read
    and write, and the requests handed to [fetch] so far, oldest first. *)
Record page : Type := mkPage {
  selectedFile : option File;
  fileInput_value : string;
  uploadArea_dragover : bool;           (* uploadArea.classList has 'dragover' *)
  uploadArea_display : string;
  fileInfo_display : string;
  fileName_textContent : string;
  fileSize_textContent : string;
  parseButton_disabled : bool;
  loading_display : string;
  resultSection_display : string;
  resumeData_innerHTML : string;
  error_display : string;
  errorMessage_textContent : string;
  fetched : list request
}.

Definition set_selectedFile (v : option File) (s : page) : page :=
  let '(mkPage _ fi dr ua fd fn fs pb lo rs ih er em rq) := s in
  mkPage v fi dr ua fd fn fs pb lo rs ih er em rq.

Definition set_fileInput_value (v : string) (s : page) : page :=
  let '(mkPage sf _ dr ua fd fn fs pb lo rs ih er em rq) := s in
  mkPage sf v dr ua fd fn fs pb lo rs ih er em rq.

Definition set_uploadArea_dragover (v : bool) (s : page) : page :=
  let '(mkPage sf fi _ ua fd fn fs pb lo rs ih er em rq) := s in
  mkPage sf fi v ua fd fn fs pb lo rs ih er em rq.

Definition set_uploadArea_display (v : string) (s : page) : page :=
  let '(mkPage sf fi dr _ fd fn fs pb lo rs ih er em rq) := s in
  mkPage sf fi dr v fd fn fs pb lo rs ih er em rq.

Definition set_fileInfo_display (v : string) (s : page) : page :=
  let '(mkPage sf fi dr ua _ fn fs pb lo rs ih er em rq) := s in
  mkPage sf fi dr ua v fn fs pb lo rs ih er em rq.

Definition set_fileName_textContent (v : string) (s : page) : page :=
  let '(mkPage sf fi dr ua fd _ fs pb lo rs ih er em rq) := s in
  mkPage sf fi dr ua fd v fs pb lo rs ih er em rq.

Definition set_fileSize_textContent (v : string) (s : page) : page :=
  let '(mkPage sf fi dr ua fd fn _ pb lo rs ih er em rq) := s in
  mkPage sf fi dr ua fd fn v pb lo rs ih er em rq.

Definition set_parseButton_disabled (v : bool) (s : page) : page :=
  let '(mkPage sf fi dr ua fd fn fs _ lo rs ih er em rq) := s in
  mkPage sf fi dr ua fd fn fs v lo rs ih er em rq.

Definition set_loading_display (v : string) (s : page) : page :=
  let '(mkPage sf fi dr ua fd fn fs pb _ rs ih er em rq) := s in
  mkPage sf fi dr ua fd fn fs pb v rs ih er em rq.

Definition set_resultSection_display (v : string) (s : page) : page :=
  let '(mkPage sf fi dr ua fd fn fs pb lo _ ih er em rq) := s in
  mkPage sf fi dr ua fd fn fs pb lo v ih er em rq.

Definition set_resumeData_innerHTML (v : string) (s : page) : page :=
  let '(mkPage sf fi dr ua fd fn fs pb lo rs _ er em rq) := s in
  mkPage sf fi dr ua fd fn fs pb lo rs v er em rq.

Definition set_error_display (v : string) (s : page) : page :=
  let '(mkPage sf fi dr ua fd fn fs pb lo rs ih _ em rq) := s in
  mkPage sf fi dr ua fd fn fs pb lo rs ih v em rq.

Definition set_errorMessage_textContent (v : string) (s : page) : page :=
  let '(mkPage sf fi dr ua fd fn fs pb lo rs ih er _ rq) := s in
  mkPage sf fi dr ua fd fn fs pb lo rs ih er v rq.

(** [fetch(url, init)]: the request leaves the page. *)
Definition fetch (r : request) (s : page) : page :=
  let '(mkPage sf fi dr ua fd fn fs pb lo rs ih er em rq) := s in
  mkPage sf fi dr ua fd fn fs pb lo rs ih er em (rq ++ [r])%list.

(** ** UI state management *)

Definition showLoading (s : page) : page :=
  let s := set_loading_display "block" s in
  set_parseButton_disabled true s.

Definition hideLoading (s : page) : page :=
  let s := set_loading_display "none" s in
  set_parseButton_disabled false s.

Definition showError (message : string) (s : page) : page :=
  let s := set_errorMessage_textContent message s in
  set_error_display "block" s.

Definition hideError (s : page) : page := set_error_display "none" s.

Definition hideResult (s : page) : page := set_resultSection_display "none" s.

(** [displayResumeData(data)]: the markup is assembled in the local
    [html] and written to the page by the last two statements, so a call
    that throws has not touched the page. *)
Definition displayResumeData (data : option ResumeData) (s : page) : completion page :=
  html <- displayResumeData_html data ;;
  let s := set_resumeData_innerHTML html s in
  Normal (set_resultSection_display "block" s).

(** What the awaited [fetch] and [response.json()] deliver.  The parsed
    body is [None] for JSON null; [success] is the truthiness of
    [data.success]. *)
Record parse_response : Type := mkResponse {
  success : bool;
  message : option string;
  resume_data : option ResumeData
}.

Inductive fetch_outcome : Type :=
| Rejected (e : exn)                                    (* fetch itself failed *)
| Responded (status : nat) (json : completion (option parse_response)).

(** Where a call of the async handler stands when it gives control back. *)
Inductive progress : Type :=
| Returned        (* the handler ran to its end *)
| Awaiting.       (* suspended at [await fetch(...)] *)

Definition maxSize : N := 10 * 1024 * 1024.

Section Handlers.

(** [formatFileSize] works in floating point ([Math.log], [toFixed]); the
    text it gives is written to the page and never read back, so the
    handlers take it as given. *)
Variable formatFileSize : N -> string.

Definition processFile (file : File) (s : page) : page :=
  if negb (includes (file_type file) "pdf") then
    showError "Please select a PDF file" s
  else if (maxSize <? file_size file)%N then
    showError "File size must be less than 10MB" s
  else
    let s := set_selectedFile (Some file) s in
    let s := set_fileName_textContent (file_name file) s in
    let s := set_fileSize_textContent (formatFileSize (file_size file)) s in
    let s := set_uploadArea_display "none" s in
    let s := set_fileInfo_display "flex" s in
    let s := hideError s in
    hideResult s.

(** [files] is [event.target.files]. *)
Definition handleFileSelect (files : list File) (s : page) : page :=
  match files with
  | file :: _ => processFile file s
  | [] => s
  end.

Definition handleDragOver (s : page) : page := set_uploadArea_dragover true s.

Definition handleDragLeave (s : page) : page := set_uploadArea_dragover false s.

(** [files] is [event.dataTransfer.files]. *)
Definition handleDrop (files : list File) (s : page) : page :=
  let s := set_uploadArea_dragover false s in
  if (0 <? List.length files)%nat then
    match files with
    | file :: _ => processFile file s
    | [] => s
    end
  else s.

(** [handleParse] up to its first [await]. *)
Definition handleParse (s : page) : page * progress :=
  match selectedFile s with
  | None => (showError "Please select a file first" s, Returned)
  | Some file =>
      let s := showLoading s in
      let s := hideError s in
      let s := hideResult s in
      let s := fetch (mkRequest (API_BASE_URL ++ "/parse-resume") "POST" [("file", file)]) s in
      (s, Awaiting)
  end.

(** The [try] block from the point where the awaited fetch settles.
    Nothing touches the page between [await fetch] and
    [await response.json()], so the two suspensions are taken as one. *)
Definition handleParse_try (o : fetch_outcome) (s : page) : completion page :=
  match o with
  | Rejected e => Throw e
  | Responded status json =>
      if negb (status_ok status) then
        Throw (Error ("HTTP error! status: " ++ nat_to_string status))
      else
        data <- json ;;
        match data with
        | None => Throw TypeError
        | Some data =>
            if success data then displayResumeData (resume_data data) s
            else Normal (showError (if truthy (message data) then to_string (message data)
                                    else "Failed to parse resume") s)
        end
  end.

(** [handleParse] from the settled fetch to its end: [try], [catch],
    [finally]. *)
Definition handleParse_resume (o : fetch_outcome) (s : page) : page :=
  let s :=
    match handleParse_try o s with
    | Normal s' => s'
    | Throw _ => showError "Failed to parse resume. Please check if the server is running." s
    end in
  hideLoading s.

Definition resetUpload (s : page) : page :=
  let s := set_selectedFile None s in
  let s := set_fileInput_value EmptyString s in
  let s := set_uploadArea_display "block" s in
  let s := set_fileInfo_display "none" s in
  let s := hideError s in
  hideResult s.

(** Everything that can happen to the page. *)
Inductive event : Type :=
| FileSelect (files : list File)     (* change on the file input *)
| UploadAreaClick                    (* opens the file picker *)
| DragOver
| DragLeave
| Drop (files : list File)
| ParseClick                         (* on the Parse button, when it is enabled *)
| Settle (o : fetch_outcome)         (* a request settles *)
| Reset.                             (* resetUpload() *)

Definition step (e : event) (s : page) : page :=
  match e with
  | FileSelect files => handleFileSelect files s
  | UploadAreaClick => s
  | DragOver => handleDragOver s
  | DragLeave => handleDragLeave s
  | Drop files => handleDrop files s
  | ParseClick => if parseButton_disabled s then s else fst (handleParse s)
  | Settle o => handleParse_resume o s
  | Reset => resetUpload s
  end.

Definition run (es : list event) (s : page) : page :=
  fold_left (fun s e => step e s) es s.

End Handlers.

(** The page once the script has loaded: [let selectedFile = null].  The
    other properties come from the document and are left open. *)
Definition loaded (s : page) : Prop := selectedFile s = None.

(** ** Observations on the page *)

(** The error box is up with [message]; the rendered resume is as it was. *)
Definition shows_error (message : string) (before after : page) : Prop :=
  error_display after = "block"
  /\ errorMessage_textContent after = message
  /\ resumeData_innerHTML after = resumeData_innerHTML before.

(** A file the selection accepts. *)
Definition acceptable (file : File) : Prop :=
  includes (file_type file) "pdf" = true /\ (file_size file <= maxSize)%N.

(** [selectedFile] is null or an acceptable file. *)
Definition selection_invariant (s : page) : Prop :=
  match selectedFile s with
  | None => True
  | Some file => acceptable file
  end.

(** ** Example pages and files *)

Definition small_pdf : File := mkFile "cv.pdf" "application/pdf" 2048.

Definition large_png : File := mkFile "scan.png" "image/png" (20 * 1024 * 1024).

Definition no_format (bytes : N) : string := EmptyString.

(** The page before anything was selected. *)
Definition example_page : page :=
  mkPage None EmptyString false "block" "none" EmptyString EmptyString
         false "none" "none" EmptyString "none" EmptyString [].

(** The page after [small_pdf] was selected. *)
Definition page_with_pdf : page := processFile no_format small_pdf example_page.

(** ** More observations on the resume page *)

(** The request [handleParse] builds for a file. *)
Definition upload_of (file : File) : request :=
  mkRequest (API_BASE_URL ++ "/parse-resume") "POST" [("file", file)].

(** A POST to /parse-resume with one acceptable file under the name
    [file]. *)
Definition acceptable_upload (r : request) : Prop :=
  exists file, r = upload_of file /\ acceptable file.

(** The markup a settled request puts on the page, if it puts any: the
    status is 2xx, the body is an object with a truthy [success], and the
    renderer completes on its [resume_data]. *)
Definition rendered (o : fetch_outcome) : option string :=
  match o with
  | Responded status (Normal (Some data)) =>
      if status_ok status && success data then
        match displayResumeData_html (resume_data data) with
        | Normal html => Some html
        | Throw _ => None
        end
      else None
  | _ => None
  end.

(** A payload with every array there and nothing in it. *)
Definition empty_resume : ResumeData :=
  mkResumeData None (Some []) None (Some []) (Some []) (Some []) (Some [])
               (Some []) (Some []).

(** A payload whose summary holds markup. *)
Definition resume_with_markup : ResumeData :=
  mkResumeData None (Some []) (Some "<img src=x onerror=alert(1)>") (Some [])
               (Some []) (Some []) (Some []) (Some []) (Some []).

End Resume.

(* ===================================================================== *)
(** * Facts about the primitives *)
(* ===================================================================== *)

Module JsFacts.

Lemma append_assoc (a b c : string) : (a ++ b) ++ c = a ++ (b ++ c).
Proof. induction a as [|x a IH]; simpl; [reflexivity | now rewrite IH]. Qed.

Lemma append_nil_r (a : string) : a ++ EmptyString = a.
Proof. induction a as [|x a IH]; simpl; [reflexivity | now rewrite IH]. Qed.

Lemma split_not_nil (c : ascii) (s : string) : split c s <> [].
Proof.
  destruct s as [|a r]; simpl; [discriminate|].
  destruct (Ascii.eqb a c); [discriminate|].
  destruct (split c r); discriminate.
Qed.

(** Joining with the empty separator is plain concatenation. *)
Lemma join_empty_cons (p : string) (ps : list string) :
  join EmptyString (p :: ps) = p ++ join EmptyString ps.
Proof.
  unfold join. destruct ps as [|q ps]; simpl.
  - now rewrite append_nil_r.
  - reflexivity.
Qed.

Lemma concat_empty_app (l1 l2 : list string) :
  String.concat EmptyString (l1 ++ l2)
  = String.concat EmptyString l1 ++ String.concat EmptyString l2.
Proof.
  induction l1 as [|x l1 IH].
  - reflexivity.
  - change ((x :: l1) ++ l2)%list with (x :: (l1 ++ l2))%list.
    fold (join EmptyString (x :: (l1 ++ l2))). fold (join EmptyString (x :: l1)).
    rewrite !join_empty_cons. unfold join. now rewrite IH, append_assoc.
Qed.

(** [forEach] with a callback that only appends. *)
Lemma forEach_list_append {A} (item : A -> string) (f : A -> string -> completion string)
      (l : list A) :
  (forall x, In x l -> forall html, f x html = Normal (html ++ item x)) ->
  forall html,
    forEach_list f l html = Normal (html ++ String.concat EmptyString (map item l)).
Proof.
  induction l as [|x l IH]; intros Hf html.
  - simpl. now rewrite append_nil_r.
  - cbn [forEach_list map]. rewrite (Hf x (or_introl eq_refl)). cbn [bind].
    rewrite IH by (intros y Hy; apply Hf; now right).
    fold (join EmptyString (item x :: map item l)). rewrite join_empty_cons.
    unfold join. now rewrite append_assoc.
Qed.

(** [forEach] with a callback that throws on some element. *)
Lemma forEach_list_throws {A S} (ok : A -> bool) (f : A -> S -> completion S)
      (e : exn) (l : list A) :
  (forall x st, ok x = false -> f x st = Throw e) ->
  (forall x st, f x st = Throw e \/ exists st', f x st = Normal st') ->
  forallb ok l = false ->
  forall st, forEach_list f l st = Throw e.
Proof.
  intros Hbad Htot. induction l as [|x l IH]; intros Hl st; [discriminate|].
  cbn [forEach_list]. simpl in Hl.
  destruct (ok x) eqn:Hx.
  - destruct (Htot x st) as [-> | [st' ->]]; [reflexivity|]. cbn [bind]. now apply IH.
  - now rewrite (Hbad x st Hx).
Qed.

Lemma trimStart_head (s : string) (c : ascii) (r : string) :
  trimStart s = String c r -> is_whitespace c = false.
Proof.
  induction s as [|a s IH]; simpl; [discriminate|].
  destruct (is_whitespace a) eqn:Ha; [exact IH|].
  intros [= <- <-]. exact Ha.
Qed.

Lemma trimEnd_head (c : ascii) (r : string) :
  is_whitespace c = false -> trimEnd (String c r) <> EmptyString.
Proof.
  intros Hc. simpl. destruct (trimEnd r); [rewrite Hc|]; discriminate.
Qed.

(** The digit count of [read_digits] only grows. *)
Lemma read_digits_count (s : string) :
  forall acc n, (n <= snd (fst (read_digits s acc n)))%nat.
Proof.
  induction s as [|c r IH]; intros acc n; cbn [read_digits]; [simpl; lia|].
  destruct (is_digit c); [|simpl; lia].
  apply Nat.le_trans with (S n); [lia | apply IH].
Qed.

Lemma number_value_not_NaN (negative : bool) (m : N) (e : Z) :
  isNaN (number_value negative m e) = false.
Proof. unfold number_value. now destruct (overflows m e). Qed.

Lemma read_digits_after_digit (c : ascii) (r : string) (acc : N) :
  is_digit c = true ->
  exists m k rest, read_digits (String c r) acc 0 = (m, S k, rest).
Proof.
  intros Hc. cbn [read_digits]. rewrite Hc.
  pose proof (read_digits_count r (10 * acc + digit_value c)%N 1) as Hn.
  destruct (read_digits r (10 * acc + digit_value c)%N 1) as [[m k] rest].
  simpl in Hn. destruct k as [|k]; [lia|]. now exists m, k, rest.
Qed.

Lemma read_digits_no_digit (s : string) (acc : N) :
  match s with String d _ => is_digit d | EmptyString => false end = false ->
  read_digits s acc 0 = (acc, 0%nat, s).
Proof. destruct s as [|d r]; simpl; [reflexivity|]. now intros ->. Qed.

End JsFacts.

(* ===================================================================== *)
(** * The calculator script: properties *)
(* ===================================================================== *)

Module CalculatorFacts.

Import JsFacts Calculator.

(** ** [parseFloat] on field values *)

Lemma unsigned_literal_NaN (negative : bool) (t : string) :
  isNaN (str_unsigned_decimal_literal negative t) = negb (starts_unsigned t).
Proof.
  unfold str_unsigned_decimal_literal, starts_unsigned.
  destruct (prefix "Infinity" t); [reflexivity|]. cbn [orb].
  destruct t as [|c r]; [reflexivity|].
  destruct (is_digit c) eqn:Hc.
  - destruct (read_digits_after_digit c r 0%N Hc) as (i & k & rest & ->).
    cbn [orb negb Nat.eqb andb].
    destruct rest as [|c' r']; [apply number_value_not_NaN|].
    destruct (Ascii.eqb c' ".").
    + destruct (read_digits r' i 0) as [[m nf] r'']. apply number_value_not_NaN.
    + apply number_value_not_NaN.
  - rewrite read_digits_no_digit by exact Hc. cbn [orb Nat.eqb andb].
    destruct (Ascii.eqb c "."); [|reflexivity].
    destruct r as [|d r0]; [reflexivity|].
    destruct (is_digit d) eqn:Hd.
    + destruct (read_digits_after_digit d r0 0%N Hd) as (m & k & rest & ->).
      cbn [Nat.eqb andb negb]. apply number_value_not_NaN.
    + rewrite read_digits_no_digit by exact Hd. reflexivity.
Qed.

(** [parseFloat] gives a number exactly on the texts that start like one. *)
Lemma parses_starts_numeric (v : string) : parses v = starts_numeric v.
Proof.
  unfold parses, parseFloat, starts_numeric.
  destruct (trimStart v) as [|c r]; [reflexivity|].
  destruct (Ascii.eqb c "+"); cbn [orb].
  - now rewrite unsigned_literal_NaN, negb_involutive.
  - destruct (Ascii.eqb c "-"); now rewrite unsigned_literal_NaN, negb_involutive.
Qed.

(** A text that parses is not blank. *)
Lemma parses_nonblank (v : string) : parses v = true -> nonblank v = true.
Proof.
  unfold parses, nonblank, trim, parseFloat.
  destruct (trimStart v) as [|c r] eqn:E; [discriminate|]. intros _.
  apply trimStart_head in E.
  destruct (String.eqb_spec (trimEnd (String c r)) EmptyString) as [H|H]; [|reflexivity].
  now apply trimEnd_head in H.
Qed.

(** ** The sanitization *)

Lemma join_split_drop_dots (v : string) :
  join EmptyString (split "." v) = drop_dots v.
Proof.
  induction v as [|c r IH]; [reflexivity|].
  cbn [split drop_dots]. destruct (Ascii.eqb c ".").
  - now rewrite join_empty_cons, IH.
  - destruct (split "." r) as [|p ps] eqn:E; [now apply split_not_nil in E|].
    rewrite join_empty_cons in *. simpl. now rewrite IH.
Qed.

Lemma split_length (v : string) :
  List.length (split "." v) = S (count_char "." v).
Proof.
  induction v as [|c r IH]; [reflexivity|].
  cbn [split count_char]. destruct (Ascii.eqb c "."); simpl; [now rewrite IH|].
  destruct (split "." r) as [|p ps] eqn:E; [now apply split_not_nil in E|].
  simpl in *. exact IH.
Qed.

Lemma drop_dots_none (v : string) : count_char "." v = 0%nat -> drop_dots v = v.
Proof.
  induction v as [|c r IH]; [reflexivity|]. simpl.
  destruct (Ascii.eqb c "."); simpl; [discriminate|]. intros H. now rewrite IH.
Qed.

Lemma keep_first_dot_few (v : string) :
  (count_char "." v <= 1)%nat -> keep_first_dot v = v.
Proof.
  induction v as [|c r IH]; [reflexivity|]. simpl.
  destruct (Ascii.eqb c "."); simpl; intros H.
  - rewrite drop_dots_none; [reflexivity | lia].
  - now rewrite IH.
Qed.

(** First part, a point, the other parts glued: the first point kept. *)
Lemma collapse_keep_first_dot (v : string) :
  (1 <= count_char "." v)%nat ->
  hd EmptyString (split "." v) ++ "." ++ join EmptyString (slice1 (split "." v))
  = keep_first_dot v.
Proof.
  induction v as [|c r IH]; [simpl; lia|].
  cbn [split count_char keep_first_dot]. destruct (Ascii.eqb c ".") eqn:Hc.
  - intros _. apply Ascii.eqb_eq in Hc as ->.
    cbn [hd slice1 tl]. now rewrite join_split_drop_dots.
  - intros H. specialize (IH H).
    destruct (split "." r) as [|p ps] eqn:E; [now apply split_not_nil in E|].
    cbn [hd slice1 tl] in *. rewrite <- IH. reflexivity.
Qed.

(** The code computes what the specification describes. *)
Lemma sanitized_keep_first_dot (v : string) :
  sanitized v = keep_first_dot (replace_non_numeric v).
Proof.
  unfold sanitized. rewrite split_length.
  destruct (2 <? S (count_char "." (replace_non_numeric v)))%nat eqn:E.
  - apply Nat.ltb_lt in E. apply collapse_keep_first_dot. lia.
  - apply Nat.ltb_ge in E. symmetry. apply keep_first_dot_few. lia.
Qed.

Lemma replace_non_numeric_chars (v : string) :
  all_chars numeric_char (replace_non_numeric v) = true.
Proof.
  induction v as [|c r IH]; [reflexivity|]. simpl.
  destruct (numeric_char c) eqn:Hc; [simpl; now rewrite Hc | exact IH].
Qed.

Lemma drop_dots_chars (p : ascii -> bool) (v : string) :
  all_chars p v = true -> all_chars p (drop_dots v) = true.
Proof.
  induction v as [|c r IH]; [reflexivity|]. simpl.
  intros [Hc Hr]%andb_prop. destruct (Ascii.eqb c "."); simpl; [auto|].
  now rewrite Hc, IH.
Qed.

Lemma keep_first_dot_chars (p : ascii -> bool) (v : string) :
  all_chars p v = true -> all_chars p (keep_first_dot v) = true.
Proof.
  induction v as [|c r IH]; [reflexivity|]. simpl.
  intros [Hc Hr]%andb_prop. destruct (Ascii.eqb c "."); simpl; rewrite Hc; simpl.
  - now apply drop_dots_chars.
  - now apply IH.
Qed.

Lemma drop_dots_count (v : string) : count_char "." (drop_dots v) = 0%nat.
Proof.
  induction v as [|c r IH]; [reflexivity|]. simpl.
  destruct (Ascii.eqb c ".") eqn:Hc; simpl; [exact IH | now rewrite Hc].
Qed.

Lemma keep_first_dot_count (v : string) : (count_char "." (keep_first_dot v) <= 1)%nat.
Proof.
  induction v as [|c r IH]; [simpl; lia|]. simpl.
  destruct (Ascii.eqb c ".") eqn:Hc; simpl; rewrite Hc.
  - rewrite drop_dots_count. lia.
  - exact IH.
Qed.

Lemma sanitized_numeric_shape (v : string) : numeric_shape (sanitized v).
Proof.
  rewrite sanitized_keep_first_dot. split.
  - apply keep_first_dot_chars, replace_non_numeric_chars.
  - apply keep_first_dot_count.
Qed.

(** ** What the handlers leave alone *)

Lemma value_set_value_same (i : input) (v : string) (s : page) :
  value i (set_value i v s) = v.
Proof. now destruct i. Qed.

Lemma value_set_value_other (i j : input) (v : string) (s : page) :
  i <> j -> value i (set_value j v s) = value i s.
Proof. destruct i, j; intros H; try reflexivity; now destruct H. Qed.

Lemma value_updateButtonState (i : input) (s : page) :
  value i (updateButtonState s) = value i s.
Proof. unfold updateButtonState. destruct i; now destruct (_ && _). Qed.

Lemma value_handleAddition (i : input) (s : page) :
  value i (fst (handleAddition s)) = value i s.
Proof. unfold handleAddition. destruct i; now destruct (_ || _). Qed.

Lemma value_handleAddition_resume (i : input) (o : fetch_outcome) (s : page) :
  value i (handleAddition_resume o s) = value i s.
Proof.
  unfold handleAddition_resume. rewrite value_updateButtonState.
  destruct (handleAddition_try o s) as [s'|e] eqn:E; [|now destruct i].
  unfold handleAddition_try in E. destruct o as [e|status json]; [discriminate|].
  destruct (negb (status_ok status)); [discriminate|].
  destruct json as [[result|]|e]; try discriminate.
  injection E as <-. now destruct i.
Qed.

Lemma value_step_edit (target : input) (raw : string) (s : page) :
  value target (step (Edit target raw) s) = sanitized raw.
Proof.
  cbn [step]. unfold validateInput.
  now rewrite value_updateButtonState, !value_set_value_same.
Qed.

Lemma value_step (i : input) (e : event) (s : page) :
  value i (step e s) = value i s \/ numeric_shape (value i (step e s)).
Proof.
  destruct e as [target raw|key| |o]; cbn [step].
  - assert (Hsame : value target (validateInput target (set_value target raw s))
                    = sanitized raw) by apply (value_step_edit target raw s).
    destruct i, target;
      try (right; rewrite Hsame; apply sanitized_numeric_shape);
      left; unfold validateInput; rewrite value_updateButtonState;
      now rewrite !value_set_value_other by discriminate.
  - left. unfold handleKeyPress. destruct (String.eqb key "Enter"); [|reflexivity].
    apply value_handleAddition.
  - left. destruct (addButton_disabled s); [reflexivity | apply value_handleAddition].
  - left. apply value_handleAddition_resume.
Qed.

Lemma run_snoc (es : list event) (e : event) (s : page) :
  run (es ++ [e]) s = step e (run es s).
Proof. unfold run. now rewrite fold_left_app. Qed.

Lemma value_run (i : input) (es : list event) (s : page) :
  value i (run es s) = value i s \/ numeric_shape (value i (run es s)).
Proof.
  induction es as [|e es IH] using rev_ind; [now left|].
  rewrite run_snoc. destruct (value_step i e (run es s)) as [H|H]; [|now right].
  rewrite H. exact IH.
Qed.

(** ** The button state *)

Lemma updateButtonState_disabled (s : page) :
  addButton_disabled (updateButtonState s) = negb (inputs_valid s).
Proof.
  unfold updateButtonState, inputs_valid, parses, nonblank. cbv zeta.
  match goal with |- context [if ?c then _ else _] => destruct c end; reflexivity.
Qed.

Lemma inputs_valid_values (s s' : page) :
  number1Input_value s = number1Input_value s' ->
  number2Input_value s = number2Input_value s' ->
  inputs_valid s = inputs_valid s'.
Proof. unfold inputs_valid. now intros -> ->. Qed.

Lemma inputs_valid_updateButtonState (s : page) :
  inputs_valid (updateButtonState s) = inputs_valid s.
Proof.
  apply inputs_valid_values.
  - apply (value_updateButtonState number1Input).
  - apply (value_updateButtonState number2Input).
Qed.

Lemma inputs_valid_starts_numeric (s : page) :
  inputs_valid s
  = starts_numeric (number1Input_value s) && starts_numeric (number2Input_value s).
Proof.
  unfold inputs_valid. rewrite <- !parses_starts_numeric.
  destruct (parses (number1Input_value s)) eqn:H1; [|reflexivity].
  destruct (parses (number2Input_value s)) eqn:H2; [|reflexivity].
  now rewrite (parses_nonblank _ H1), (parses_nonblank _ H2).
Qed.

(** ** The request and the busy state *)

Lemma handleAddition_invalid (s : page) :
  isNaN (parseFloat (number1Input_value s)) = true
  \/ isNaN (parseFloat (number2Input_value s)) = true ->
  handleAddition s = (showError "Please enter valid numbers" s, Returned).
Proof.
  intros H. unfold handleAddition.
  destruct H as [-> | ->]; [reflexivity | now rewrite orb_true_r].
Qed.

Lemma handleAddition_busy (s : page) :
  parses (number1Input_value s) = true ->
  parses (number2Input_value s) = true ->
  exists busy,
    addButton_disabled busy = true
    /\ addButton_textContent busy = "Calculating..."
    /\ fetched busy = fetched s
    /\ handleAddition s
       = (fetch (mkRequest (API_BASE_URL ++ "/add") "POST" "application/json"
                           (JSON_stringify_number (parseFloat (number1Input_value s)))
                           (JSON_stringify_number (parseFloat (number2Input_value s))))
                busy,
          Awaiting).
Proof.
  unfold parses. intros H1%negb_true_iff H2%negb_true_iff.
  exists (set_addButton_textContent "Calculating..." (set_addButton_disabled true s)).
  unfold handleAddition. rewrite H1, H2. repeat split.
Qed.

Lemma handleAddition_resume_idle (o : fetch_outcome) (s : page) :
  addButton_textContent (handleAddition_resume o s) = "Add"
  /\ addButton_disabled (handleAddition_resume o s) = negb (inputs_valid s).
Proof.
  assert (Hv : inputs_valid (handleAddition_resume o s) = inputs_valid s).
  { apply inputs_valid_values.
    - apply (value_handleAddition_resume number1Input).
    - apply (value_handleAddition_resume number2Input). }
  unfold handleAddition_resume in *. cbv zeta in *.
  rewrite updateButtonState_disabled. rewrite inputs_valid_updateButtonState in Hv.
  rewrite Hv. split; [|reflexivity].
  unfold updateButtonState. cbv zeta.
  match goal with |- context [if ?c then _ else _] => destruct c end; reflexivity.
Qed.

(** ** The claims about the calculator *)

(** C2, as amended.  The value [validateInput] leaves in the edited field
    is the raw text without the characters outside [0-9.-] and without
    every decimal point after the first; it holds only characters of
    [0-9.-] and at most one decimal point.  Along any sequence of events
    a field holds either the text it started with or a text of that
    shape.  Minus signs are not limited in number or position. *)
Theorem sanitized_value_shape (target : input) (raw : string) (s : page)
        (es : list event) :
  sanitized raw = keep_first_dot (replace_non_numeric raw)
  /\ value target (step (Edit target raw) s) = sanitized raw
  /\ numeric_shape (sanitized raw)
  /\ (value target (run es s) = value target s
      \/ numeric_shape (value target (run es s))).
Proof.
  split; [apply sanitized_keep_first_dot|].
  split; [apply value_step_edit|].
  split; [apply sanitized_numeric_shape | apply value_run].
Qed.

(** C2 as stated fails: the keys 1 - 2 - 3 typed into the empty first
    field leave [1-2-3], with two minus signs, neither of them leading. *)
Lemma typed_minus_signs_survive :
  value number1Input (type_keys number1Input "1-2-3" example_page) = "1-2-3"
  /\ ~ claimed_shape (value number1Input (type_keys number1Input "1-2-3" example_page)).
Proof.
  split; [reflexivity|]. intros [_ H]. vm_compute in H. discriminate.
Qed.

(** C3, as amended.  After an input event the Add button is enabled
    exactly when [parseFloat] gives a number other than NaN for both field
    values and neither value is blank, that is exactly when both values
    start, after white space and an optional sign, with a digit, a point
    and a digit, or Infinity.  The number may be infinite. *)
Theorem button_enabled_iff_inputs_parse (target : input) (raw : string) (s : page) :
  let s' := step (Edit target raw) s in
  addButton_disabled s' = negb (inputs_valid s')
  /\ inputs_valid s'
     = starts_numeric (number1Input_value s') && starts_numeric (number2Input_value s').
Proof.
  cbv zeta. split; [|apply inputs_valid_starts_numeric].
  cbn [step]. unfold validateInput. cbv zeta.
  now rewrite updateButtonState_disabled, inputs_valid_updateButtonState.
Qed.

(** C3 as stated fails: a one followed by 309 zeros in the first field
    and 1 in the second enable the button, yet the first value parses to
    Infinity, not to a finite number. *)
Lemma overflowing_input_enables_button :
  let s' := step (Edit number2Input "1")
                 (step (Edit number1Input (one_and_zeros 309)) example_page) in
  parseFloat (number1Input_value s') = Infinity false
  /\ addButton_disabled s' = false
  /\ addButton_disabled s' <> negb (inputs_finite s').
Proof. vm_compute. repeat split. discriminate. Qed.

(** C9.  When [parseFloat] gives NaN for either field, the Enter key runs
    the handler whatever the state of the Add button: it shows
    'Please enter valid numbers' as an error and returns with no request
    sent and none pending. *)
Theorem enter_with_invalid_input_sends_nothing (s : page) :
  isNaN (parseFloat (number1Input_value s)) = true
  \/ isNaN (parseFloat (number2Input_value s)) = true ->
  handleKeyPress "Enter" s = (showError "Please enter valid numbers" s, Returned)
  /\ resultDiv_textContent (step (KeyPress "Enter") s) = "Please enter valid numbers"
  /\ resultDiv_className (step (KeyPress "Enter") s) = "result show error"
  /\ fetched (step (KeyPress "Enter") s) = fetched s.
Proof.
  intros H. cbn [step]. unfold handleKeyPress. cbn [String.eqb Ascii.eqb Bool.eqb].
  change (if true then handleAddition s else (s, Returned)) with (handleAddition s).
  rewrite (handleAddition_invalid s H). repeat split.
Qed.

Lemma enter_with_invalid_input_witness :
  addButton_disabled example_page = true
  /\ handleKeyPress "Enter" example_page
     = (showError "Please enter valid numbers" example_page, Returned)
  /\ fetched (step (KeyPress "Enter") example_page) = [].
Proof.
  split; [reflexivity|].
  destruct (enter_with_invalid_input_sends_nothing example_page) as (H1 & _ & _ & H4).
  - left. reflexivity.
  - split; [exact H1 | exact H4].
Defined.

End CalculatorFacts.

(* ===================================================================== *)
(** * The resume page: properties *)
(* ===================================================================== *)

Module ResumeFacts.

Import JsFacts Resume.

(** ** The renderer *)

Lemma append_if (c : bool) (html x : string) :
  (if c then html ++ x else html) = html ++ (if c then x else EmptyString).
Proof. destruct c; [reflexivity | now rewrite append_nil_r]. Qed.

Lemma optional_line_if (label : string) (v : option string) (html : string) :
  (if truthy v then html ++ labelled_line label (to_string v) else html)
  = html ++ optional_line label v.
Proof. unfold optional_line. apply append_if. Qed.

(** The test and the filtered join of the code give the date line of the
    specification. *)
Lemma dates_date_line (start_date end_date : option string) (html : string) :
  (if dates_shown start_date end_date
   then html ++ labelled_line "Dates:" (dates_text start_date end_date)
   else html)
  = html ++ date_line start_date end_date.
Proof.
  rewrite append_if. f_equal.
  destruct start_date as [[|c r]|], end_date as [[|c' r']|]; try reflexivity.
  all: unfold dates_shown, dates_text, date_line, filter_Boolean, join_values, join;
       cbn [truthy orb filter map String.concat to_string]; try reflexivity.
  all: now rewrite ?append_nil_r.
Qed.

Lemma education_entry_item (edu : Education) (html : string) :
  education_entry edu html = Normal (html ++ education_item edu).
Proof.
  unfold education_entry, education_item. cbv zeta.
  rewrite dates_date_line, !optional_line_if, !append_assoc. reflexivity.
Qed.

Lemma work_entry_item (work : WorkExperience) (html : string) :
  work_entry work html = Normal (html ++ work_item work).
Proof.
  unfold work_entry, work_item. cbv zeta.
  rewrite optional_line_if, dates_date_line, !optional_line_if, !append_assoc.
  reflexivity.
Qed.

Lemma certification_entry_item (cert : Certification) (html : string) :
  certification_entry cert html = Normal (html ++ certification_item cert).
Proof.
  unfold certification_entry, certification_item. cbv zeta.
  rewrite !optional_line_if, !append_assoc. reflexivity.
Qed.

Lemma project_entry_item (project : Project) (html : string) :
  project_entry project html
  = if is_some (project_technologies project)
    then Normal (html ++ project_item project)
    else Throw TypeError.
Proof.
  unfold project_entry, project_item. cbv zeta.
  rewrite !optional_line_if.
  destruct (project_technologies project) as [[|t l]|]; cbn [length_of bind is_some];
    [| |reflexivity].
  - cbn [List.length Nat.ltb Nat.leb has_entries entries bind].
    rewrite !append_assoc. reflexivity.
  - cbn [List.length Nat.ltb Nat.leb has_entries entries bind].
    rewrite !append_assoc. reflexivity.
Qed.

Lemma forEach_items {A} (item : A -> string) (f : A -> string -> completion string)
      (l : list A) (html : string) :
  (forall x html, f x html = Normal (html ++ item x)) ->
  forEach (Some l) f html = Normal (html ++ all_of item l).
Proof. intros Hf. cbn [forEach]. apply forEach_list_append. intros x _. apply Hf. Qed.

(** A block appends what its category contributes, or throws when the
    array it reads is missing. *)
Lemma personal_information_emitted (data : ResumeData) (html : string) :
  personal_information data html
  = if is_some (contact_info data)
    then Normal (html ++ emitted data PersonalInformation)
    else Throw TypeError.
Proof.
  unfold personal_information, emitted, section, nonempty, section_body. cbv zeta.
  destruct (contact_info data) as [[|x l]|];
    destruct (truthy (full_name data));
    cbn [length_of bind List.length Nat.ltb Nat.leb has_entries entries orb is_some];
    try reflexivity.
  - rewrite !append_assoc. reflexivity.
  - now rewrite append_nil_r.
  - rewrite (forEach_items (fun contact => span_open "contact-item"
                                            ++ contact_value contact ++ "</span>"))
      by reflexivity.
    cbn [bind]. rewrite !append_assoc. reflexivity.
  - rewrite (forEach_items (fun contact => span_open "contact-item"
                                            ++ contact_value contact ++ "</span>"))
      by reflexivity.
    cbn [bind]. rewrite !append_assoc. reflexivity.
Qed.

Lemma summary_block_emitted (data : ResumeData) (html : string) :
  summary_block data html = Normal (html ++ emitted data Summary).
Proof.
  unfold summary_block, emitted, section, nonempty, section_body. cbv zeta.
  destruct (truthy (summary data)); [|now rewrite append_nil_r].
  rewrite !append_assoc. reflexivity.
Qed.

Lemma education_block_emitted (data : ResumeData) (html : string) :
  education_block data html
  = if is_some (education data)
    then Normal (html ++ emitted data EducationCategory)
    else Throw TypeError.
Proof.
  unfold education_block, emitted, section, nonempty, section_body. cbv zeta.
  destruct (education data) as [[|x l]|];
    cbn [length_of bind List.length Nat.ltb Nat.leb has_entries entries is_some];
    [now rewrite append_nil_r | | reflexivity].
  rewrite (forEach_items education_item) by apply education_entry_item.
  cbn [bind]. rewrite !append_assoc. reflexivity.
Qed.

Lemma work_experience_block_emitted (data : ResumeData) (html : string) :
  work_experience_block data html
  = if is_some (work_experience data)
    then Normal (html ++ emitted data WorkExperienceCategory)
    else Throw TypeError.
Proof.
  unfold work_experience_block, emitted, section, nonempty, section_body. cbv zeta.
  destruct (work_experience data) as [[|x l]|];
    cbn [length_of bind List.length Nat.ltb Nat.leb has_entries entries is_some];
    [now rewrite append_nil_r | | reflexivity].
  rewrite (forEach_items work_item) by apply work_entry_item.
  cbn [bind]. rewrite !append_assoc. reflexivity.
Qed.

Lemma skills_block_emitted (data : ResumeData) (html : string) :
  skills_block data html
  = if is_some (skills data)
    then Normal (html ++ emitted data Skills)
    else Throw TypeError.
Proof.
  unfold skills_block, emitted, section, nonempty, section_body. cbv zeta.
  destruct (skills data) as [[|x l]|];
    cbn [length_of bind List.length Nat.ltb Nat.leb has_entries entries is_some];
    [now rewrite append_nil_r | | reflexivity].
  rewrite (forEach_items (fun skill => span_open "skill-tag" ++ skill_name skill
                                        ++ "</span>"))
    by reflexivity.
  cbn [bind]. rewrite !append_assoc. reflexivity.
Qed.

Lemma certifications_block_emitted (data : ResumeData) (html : string) :
  certifications_block data html
  = if is_some (certifications data)
    then Normal (html ++ emitted data Certifications)
    else Throw TypeError.
Proof.
  unfold certifications_block, emitted, section, nonempty, section_body. cbv zeta.
  destruct (certifications data) as [[|x l]|];
    cbn [length_of bind List.length Nat.ltb Nat.leb has_entries entries is_some];
    [now rewrite append_nil_r | | reflexivity].
  rewrite (forEach_items certification_item) by apply certification_entry_item.
  cbn [bind]. rewrite !append_assoc. reflexivity.
Qed.

Lemma languages_block_emitted (data : ResumeData) (html : string) :
  languages_block data html
  = if is_some (languages data)
    then Normal (html ++ emitted data Languages)
    else Throw TypeError.
Proof.
  unfold languages_block, emitted, section, nonempty, section_body. cbv zeta.
  destruct (languages data) as [[|x l]|];
    cbn [length_of bind List.length Nat.ltb Nat.leb has_entries entries is_some];
    [now rewrite append_nil_r | | reflexivity].
  rewrite (forEach_items (fun lang => span_open "skill-tag" ++ lang_name lang
                                       ++ "</span>"))
    by reflexivity.
  cbn [bind]. rewrite !append_assoc. reflexivity.
Qed.

Lemma forEach_projects (l : list Project) (html : string) :
  forEach_list project_entry l html
  = if forallb technologies_present l
    then Normal (html ++ all_of project_item l)
    else Throw TypeError.
Proof.
  destruct (forallb technologies_present l) eqn:E.
  - apply forEach_list_append. intros x Hx html'.
    rewrite project_entry_item.
    rewrite forallb_forall in E. specialize (E x Hx).
    unfold technologies_present in E. now rewrite E.
  - apply (forEach_list_throws technologies_present); [| |exact E].
    + intros x st Hx. rewrite project_entry_item.
      unfold technologies_present in Hx. now rewrite Hx.
    + intros x st. rewrite project_entry_item.
      destruct (is_some (project_technologies x)); [right; eauto | now left].
Qed.

Lemma projects_block_emitted (data : ResumeData) (html : string) :
  projects_block data html
  = if is_some (projects data)
       && forallb technologies_present (entries (projects data))
    then Normal (html ++ emitted data Projects)
    else Throw TypeError.
Proof.
  unfold projects_block, emitted, section, nonempty, section_body. cbv zeta.
  destruct (projects data) as [[|x l]|];
    cbn [length_of bind List.length Nat.ltb Nat.leb has_entries entries is_some andb];
    [now rewrite append_nil_r | | reflexivity].
  cbn [forEach]. rewrite forEach_projects.
  destruct (forallb technologies_present (x :: l)); [|reflexivity].
  cbn [bind]. rewrite !append_assoc. reflexivity.
Qed.

Lemma concat_map_filter {A} (p : A -> bool) (f : A -> string) (l : list A) :
  String.concat EmptyString (map f (filter p l))
  = String.concat EmptyString (map (fun x => if p x then f x else EmptyString) l).
Proof.
  induction l as [|x l IH]; [reflexivity|].
  cbn [filter map].
  change (String.concat EmptyString
            ((if p x then f x else EmptyString)
               :: map (fun x => if p x then f x else EmptyString) l))
    with (join EmptyString
            ((if p x then f x else EmptyString)
               :: map (fun x => if p x then f x else EmptyString) l)).
  rewrite join_empty_cons. unfold join. rewrite <- IH.
  destruct (p x); [|reflexivity].
  cbn [map]. fold (join EmptyString (f x :: map f (filter p l))).
  now rewrite join_empty_cons.
Qed.

Lemma sections_emitted (data : ResumeData) :
  sections data = String.concat EmptyString (map (emitted data) categories).
Proof. unfold sections. apply concat_map_filter. Qed.

(** The example of the specification: empty education, one work entry
    with company Acme and position Eng. *)
Example acme_sections :
  exists html,
    displayResumeData_html (Some acme_resume) = Normal html
    /\ includes html "Work Experience" = true
    /\ includes html "Acme" = true
    /\ includes html "Eng" = true
    /\ includes html "Education" = false.
Proof. eexists. split; [vm_compute; reflexivity|]. vm_compute. repeat split. Qed.

(** ** [displayResumeData] on the page *)



(** ** The claims about the renderer *)

(** C1, as amended.  For a payload whose array properties are all there
    (contact_info, education, work_experience, skills, projects with the
    technologies of every project, certifications, languages) the
    renderer gives one labelled section per non-empty category, in the
    order personal information, summary, education, work experience,
    skills, projects, certifications, languages, and nothing for a
    category whose array is empty or whose string (name, summary) is empty
    or missing.  For a payload with one of those arrays missing it throws
    and gives no output. *)
Theorem sections_in_fixed_order (data : ResumeData) :
  displayResumeData_html (Some data)
  = if arrays_present data
    then Normal (String.concat EmptyString
                   (map (section data) (filter (nonempty data) categories)))
    else Throw TypeError.
Proof.
  fold (sections data).
  unfold displayResumeData_html, arrays_present. cbv zeta.
  rewrite personal_information_emitted.
  destruct (is_some (contact_info data)); cbn [bind andb]; [|reflexivity].
  rewrite summary_block_emitted. cbn [bind].
  rewrite education_block_emitted.
  destruct (is_some (education data)); cbn [bind andb]; [|reflexivity].
  rewrite work_experience_block_emitted.
  destruct (is_some (work_experience data)); cbn [bind andb]; [|reflexivity].
  rewrite skills_block_emitted.
  destruct (is_some (skills data)); cbn [bind andb]; [|reflexivity].
  rewrite projects_block_emitted.
  destruct (is_some (projects data)); cbn [bind andb]; [|reflexivity].
  destruct (forallb technologies_present (entries (projects data)));
    cbn [bind]; [|now rewrite andb_false_r].
  rewrite andb_true_r.
  rewrite certifications_block_emitted.
  destruct (is_some (certifications data)); cbn [bind andb]; [|reflexivity].
  rewrite languages_block_emitted.
  destruct (is_some (languages data)); cbn [bind andb]; [|reflexivity].
  rewrite sections_emitted. unfold categories. cbn [map String.concat].
  rewrite !append_assoc. reflexivity.
Qed.

(** C1 as stated fails: a payload with a name and without the education
    property is not rendered with its education section left out; the
    renderer throws. *)
Lemma missing_education_throws :
  nonempty resume_without_education PersonalInformation = true
  /\ displayResumeData_html (Some resume_without_education) = Throw TypeError
  /\ displayResumeData_html (Some resume_without_education)
     <> Normal (sections resume_without_education).
Proof. split; [reflexivity|]. split; [reflexivity|]. vm_compute. discriminate. Qed.



(** ** The handlers *)

Lemma selectedFile_showError (message : string) (s : page) :
  selectedFile (showError message s) = selectedFile s.
Proof. now destruct s. Qed.

Lemma fetched_showError (message : string) (s : page) :
  fetched (showError message s) = fetched s.
Proof. now destruct s. Qed.

Lemma shows_error_showError (message : string) (s : page) :
  shows_error message s (showError message s).
Proof. now destruct s. Qed.

Lemma shows_error_hideLoading (message : string) (s s' : page) :
  shows_error message s s' -> shows_error message s (hideLoading s').
Proof. destruct s'. exact (fun H => H). Qed.

Lemma selectedFile_handleParse (s : page) :
  selectedFile (fst (handleParse s)) = selectedFile s.
Proof. unfold handleParse. destruct s as [[file|]]; reflexivity. Qed.

Lemma selectedFile_handleParse_try (o : fetch_outcome) (s s' : page) :
  handleParse_try o s = Normal s' -> selectedFile s' = selectedFile s.
Proof.
  unfold handleParse_try. destruct o as [e|status json]; [discriminate|].
  destruct (negb (status_ok status)); [discriminate|].
  destruct json as [[data|]|e]; cbn [bind]; try discriminate.
  destruct (success data).
  - unfold displayResumeData.
    destruct (displayResumeData_html (resume_data data)); cbn [bind]; [|discriminate].
    intros [= <-]. now destruct s.
  - intros [= <-]. apply selectedFile_showError.
Qed.

Lemma selectedFile_handleParse_resume (o : fetch_outcome) (s : page) :
  selectedFile (handleParse_resume o s) = selectedFile s.
Proof.
  unfold handleParse_resume. cbv zeta.
  destruct (handleParse_try o s) as [s'|e] eqn:E.
  - apply selectedFile_handleParse_try in E. rewrite <- E. now destruct s'.
  - now destruct s.
Qed.

Lemma handleParse_resume_idle (o : fetch_outcome) (s : page) :
  parseButton_disabled (handleParse_resume o s) = false
  /\ loading_display (handleParse_resume o s) = "none".
Proof.
  unfold handleParse_resume. cbv zeta.
  destruct (match handleParse_try o s with Normal s' => s' | Throw _ => _ end).
  now split.
Qed.

Lemma handleParse_busy (s : page) (file : File) :
  selectedFile s = Some file ->
  exists busy,
    parseButton_disabled busy = true
    /\ loading_display busy = "block"
    /\ fetched busy = fetched s
    /\ handleParse s
       = (fetch (mkRequest (API_BASE_URL ++ "/parse-resume") "POST" [("file", file)]) busy,
          Awaiting).
Proof.
  intros H. exists (hideResult (hideError (showLoading s))).
  unfold handleParse. rewrite H. destruct s. repeat split.
Qed.

Lemma loaded_selection_invariant (s : page) : loaded s -> selection_invariant s.
Proof. unfold loaded, selection_invariant. now intros ->. Qed.

Section Selection.

Variable formatFileSize : N -> string.

Lemma processFile_selectedFile (file : File) (s : page) :
  selectedFile (processFile formatFileSize file s)
  = if includes (file_type file) "pdf" && (file_size file <=? maxSize)%N
    then Some file else selectedFile s.
Proof.
  unfold processFile. rewrite N.leb_antisym.
  destruct (includes (file_type file) "pdf"); cbn [negb andb];
    [|apply selectedFile_showError].
  destruct (maxSize <? file_size file)%N; cbn [negb];
    [apply selectedFile_showError | now destruct s].
Qed.

Lemma processFile_invariant (file : File) (s : page) :
  selection_invariant s -> selection_invariant (processFile formatFileSize file s).
Proof.
  unfold selection_invariant. rewrite processFile_selectedFile.
  destruct (includes (file_type file) "pdf") eqn:Ht; cbn [andb]; [|auto].
  destruct (file_size file <=? maxSize)%N eqn:Hs; [|auto].
  intros _. split; [exact Ht | now apply N.leb_le].
Qed.

Lemma step_invariant (e : event) (s : page) :
  selection_invariant s -> selection_invariant (step formatFileSize e s).
Proof.
  intros H. destruct e as [files| | | |files| |o|]; cbn [step].
  - destruct files as [|file files]; [exact H | now apply processFile_invariant].
  - exact H.
  - now destruct s.
  - now destruct s.
  - unfold handleDrop. cbv zeta.
    assert (H' : selection_invariant (set_uploadArea_dragover false s)) by now destruct s.
    destruct files as [|file files]; [exact H' | now apply processFile_invariant].
  - destruct (parseButton_disabled s); [exact H|].
    unfold selection_invariant. now rewrite selectedFile_handleParse.
  - unfold selection_invariant. now rewrite selectedFile_handleParse_resume.
  - now destruct s.
Qed.

Lemma run_invariant (es : list event) (s : page) :
  selection_invariant s -> selection_invariant (run formatFileSize es s).
Proof.
  revert s. induction es as [|e es IH]; intros s H; [exact H|].
  apply IH. now apply step_invariant.
Qed.

(** ** The claims about the selection *)

(** C4, as amended.  A file whose type does not contain [pdf], or whose
    size exceeds 10 * 1024 * 1024 bytes, is rejected: the error box shows
    a message, [selectedFile] and every other property of the page stay
    as they were, and no request is sent.  The message is the one about
    the size for an oversized file whose type contains [pdf]; a file
    whose type does not contain [pdf] gets the message about PDF whatever
    its size. *)
Theorem rejected_file_changes_nothing (file : File) (s : page) :
  includes (file_type file) "pdf" = false \/ (maxSize < file_size file)%N ->
  let s' := processFile formatFileSize file s in
  s' = showError (if includes (file_type file) "pdf"
                  then "File size must be less than 10MB"
                  else "Please select a PDF file") s
  /\ selectedFile s' = selectedFile s
  /\ fetched s' = fetched s
  /\ error_display s' = "block"
  /\ handleFileSelect formatFileSize [file] s = s'
  /\ handleDrop formatFileSize [file] s
     = processFile formatFileSize file (handleDragLeave s).
Proof.
  intros H. cbv zeta.
  assert (E : processFile formatFileSize file s
              = showError (if includes (file_type file) "pdf"
                           then "File size must be less than 10MB"
                           else "Please select a PDF file") s).
  { unfold processFile. destruct (includes (file_type file) "pdf"); cbn [negb];
      [|reflexivity].
    destruct H as [H|H]; [discriminate|].
    apply N.ltb_lt in H. now rewrite H. }
  rewrite E. split; [reflexivity|].
  split; [apply selectedFile_showError|].
  split; [apply fetched_showError|].
  split; [now destruct s|].
  split; [exact E | reflexivity].
Qed.

(** C10.  [selectedFile] is always null or a file whose type contains
    [pdf] and whose size is at most 10 * 1024 * 1024: every event keeps
    this, so every run does; [processFile] stores the file exactly when
    both checks pass and leaves [selectedFile] alone otherwise; and
    [resetUpload] sets it to null. *)
Theorem selected_file_is_acceptable (es : list event) (e : event) (file : File)
        (s : page) :
  selection_invariant s ->
  selection_invariant (step formatFileSize e s)
  /\ selection_invariant (run formatFileSize es s)
  /\ selectedFile (processFile formatFileSize file s)
     = (if includes (file_type file) "pdf" && (file_size file <=? maxSize)%N
        then Some file else selectedFile s)
  /\ selectedFile (resetUpload s) = None.
Proof.
  intros H.
  split; [now apply step_invariant|].
  split; [now apply run_invariant|].
  split; [apply processFile_selectedFile | now destruct s].
Qed.

End Selection.

(** C4 as stated fails: a PNG of 20 MiB is oversized, and the message it
    is rejected with is the one about PDF, not the one about the size. *)
Lemma oversized_png_gets_type_message :
  (maxSize < file_size large_png)%N
  /\ errorMessage_textContent (processFile no_format large_png example_page)
     = "Please select a PDF file"
  /\ errorMessage_textContent (processFile no_format large_png example_page)
     <> "File size must be less than 10MB".
Proof. split; [reflexivity|]. split; [reflexivity|]. vm_compute. discriminate. Qed.

Lemma rejected_file_witness :
  selectedFile (processFile no_format large_png page_with_pdf) = Some small_pdf
  /\ fetched (processFile no_format large_png page_with_pdf) = [].
Proof.
  destruct (rejected_file_changes_nothing no_format large_png page_with_pdf)
    as (_ & H2 & H3 & _).
  - left. reflexivity.
  - split; [exact H2 | exact H3].
Defined.

Lemma selected_file_witness :
  selectedFile page_with_pdf = Some small_pdf
  /\ selectedFile
       (run no_format
            [Drop [large_png]; ParseClick; Settle (Rejected TypeError); DragOver]
            page_with_pdf) = Some small_pdf
  /\ selection_invariant
       (run no_format
            [Drop [large_png]; ParseClick; Settle (Rejected TypeError); DragOver]
            page_with_pdf).
Proof.
  split; [reflexivity|]. split; [reflexivity|].
  destruct (selected_file_is_acceptable no_format
              [Drop [large_png]; ParseClick; Settle (Rejected TypeError); DragOver]
              (Drop [large_png]) small_pdf page_with_pdf) as (_ & H & _).
  - split; [reflexivity | discriminate].
  - exact H.
Defined.

(** ** The claims about the response *)

(** C6, as amended.  A status outside 200..299 and a body that is not a
    JSON object both end in the generic failure message.  With a 2xx
    status and [success] false the error shown is [message] when it is
    there and not empty, and 'Failed to parse resume' otherwise.  With a
    2xx status and [success] true [resume_data] goes to the renderer:
    when it renders, its markup is put on the page and the error box is
    left as it was; when the renderer throws ([resume_data] or one of its
    arrays missing) the generic failure message is shown and the page
    keeps its earlier markup. *)
Theorem parse_response_handling (status : nat)
        (json : completion (option parse_response)) (s : page) :
  let s' := handleParse_resume (Responded status json) s in
  let failure := "Failed to parse resume. Please check if the server is running." in
  if negb (status_ok status) then shows_error failure s s'
  else
    match json with
    | Normal (Some data) =>
        if success data then
          match displayResumeData_html (resume_data data) with
          | Normal html =>
              resumeData_innerHTML s' = html
              /\ resultSection_display s' = "block"
              /\ error_display s' = error_display s
              /\ errorMessage_textContent s' = errorMessage_textContent s
          | Throw _ => shows_error failure s s'
          end
        else
          shows_error (match message data with
                       | Some (String c m) => String c m
                       | _ => "Failed to parse resume"
                       end) s s'
    | _ => shows_error failure s s'
    end.
Proof.
  cbv zeta. unfold handleParse_resume, handleParse_try. cbv zeta.
  destruct (negb (status_ok status));
    [apply shows_error_hideLoading, shows_error_showError|].
  destruct json as [[data|]|e]; cbn [bind];
    try apply shows_error_hideLoading, shows_error_showError.
  destruct (success data).
  - unfold displayResumeData.
    destruct (displayResumeData_html (resume_data data)) as [html|e]; cbn [bind].
    + now destruct s.
    + apply shows_error_hideLoading, shows_error_showError.
  - destruct (message data) as [[|c m]|]; cbn [truthy to_string];
      apply shows_error_hideLoading, shows_error_showError.
Qed.

(** C6 as stated fails: a 200 response with [success] true and no
    [resume_data], arriving on the page as [handleParse] left it (error
    box hidden), ends with the error box up. *)
Lemma success_without_resume_data_shows_error :
  let before := fst (handleParse page_with_pdf) in
  let after :=
    handleParse_resume (Responded 200 (Normal (Some (mkResponse true None None))))
                       before in
  error_display before = "none"
  /\ error_display after = "block"
  /\ errorMessage_textContent after
     = "Failed to parse resume. Please check if the server is running."
  /\ error_display after <> error_display before.
Proof. vm_compute. repeat split. discriminate. Qed.

End ResumeFacts.

(* ===================================================================== *)
(** * Both scripts: the busy state around a request *)
(* ===================================================================== *)

Module BusyState.

(** C5.  Each handler disables its control and shows that it is working
    (the loading indicator, the label Calculating...) in the page from
    which the request leaves, and whatever the request ends in - a
    rejected fetch, a status outside 200..299, a malformed body, success
    false or true - the part that runs afterwards hides the indicator or
    restores the label and re-enables the control.  [handleParse] always
    leaves its button enabled; [handleAddition] leaves the Add button in
    the state [updateButtonState] gives it, which is enabled when the
    fields still hold what the request was sent for. *)
Theorem busy_state_entered_and_left
        (s s' : Resume.page) (file : Resume.File) (o : Resume.fetch_outcome)
        (c c' : Calculator.page) (oc : Calculator.fetch_outcome) :
  Resume.selectedFile s = Some file ->
  Calculator.parses (Calculator.number1Input_value c) = true ->
  Calculator.parses (Calculator.number2Input_value c) = true ->
  (exists busy,
      Resume.parseButton_disabled busy = true
      /\ Resume.loading_display busy = "block"
      /\ Resume.fetched busy = Resume.fetched s
      /\ Resume.handleParse s
         = (Resume.fetch
              (Resume.mkRequest (Resume.API_BASE_URL ++ "/parse-resume") "POST"
                                [("file", file)]) busy,
            Resume.Awaiting))
  /\ Resume.parseButton_disabled (Resume.handleParse_resume o s') = false
  /\ Resume.loading_display (Resume.handleParse_resume o s') = "none"
  /\ (exists busy,
         Calculator.addButton_disabled busy = true
         /\ Calculator.addButton_textContent busy = "Calculating..."
         /\ Calculator.fetched busy = Calculator.fetched c
         /\ Calculator.handleAddition c
            = (Calculator.fetch
                 (Calculator.mkRequest (Calculator.API_BASE_URL ++ "/add") "POST"
                    "application/json"
                    (JSON_stringify_number
                       (parseFloat (Calculator.number1Input_value c)))
                    (JSON_stringify_number
                       (parseFloat (Calculator.number2Input_value c)))) busy,
               Calculator.Awaiting))
  /\ Calculator.addButton_textContent (Calculator.handleAddition_resume oc c') = "Add"
  /\ Calculator.addButton_disabled (Calculator.handleAddition_resume oc c')
     = negb (Calculator.inputs_valid c')
  /\ Calculator.addButton_disabled
       (Calculator.handleAddition_resume oc (fst (Calculator.handleAddition c)))
     = false.
Proof.
  intros Hfile H1 H2.
  split; [now apply ResumeFacts.handleParse_busy|].
  destruct (ResumeFacts.handleParse_resume_idle o s') as [Hp Hl].
  split; [exact Hp|]. split; [exact Hl|].
  split; [now apply CalculatorFacts.handleAddition_busy|].
  destruct (CalculatorFacts.handleAddition_resume_idle oc c') as [Ht Hd].
  split; [exact Ht|]. split; [exact Hd|].
  destruct (CalculatorFacts.handleAddition_resume_idle
              oc (fst (Calculator.handleAddition c))) as [_ ->].
  rewrite (CalculatorFacts.inputs_valid_values _ c).
  - unfold Calculator.inputs_valid.
    now rewrite H1, H2, !CalculatorFacts.parses_nonblank.
  - apply (CalculatorFacts.value_handleAddition Calculator.number1Input).
  - apply (CalculatorFacts.value_handleAddition Calculator.number2Input).
Qed.

Lemma busy_state_witness :
  Resume.parseButton_disabled
    (Resume.handleParse_resume (Resume.Rejected TypeError)
       (fst (Resume.handleParse Resume.page_with_pdf))) = false
  /\ Calculator.addButton_disabled
       (Calculator.handleAddition_resume (Calculator.Rejected TypeError)
          (fst (Calculator.handleAddition Calculator.page_with_numbers))) = false.
Proof.
  destruct (busy_state_entered_and_left
              Resume.page_with_pdf (fst (Resume.handleParse Resume.page_with_pdf))
              Resume.small_pdf (Resume.Rejected TypeError)
              Calculator.page_with_numbers Calculator.page_with_numbers
              (Calculator.Rejected TypeError))
    as (_ & Hp & _ & _ & _ & _ & Hc).
  - reflexivity.
  - reflexivity.
  - reflexivity.
  - split; [exact Hp | exact Hc].
Defined.

End BusyState.

(* ===================================================================== *)
(** * The calculator script: further behaviour *)
(* ===================================================================== *)

Module CalculatorBehaviour.

Import JsFacts Calculator CalculatorFacts.

(** ** What the sanitization keeps *)

Lemma replace_non_numeric_fixed (v : string) :
  all_chars numeric_char v = true -> replace_non_numeric v = v.
Proof.
  induction v as [|c r IH]; [reflexivity|]. simpl.
  intros [Hc Hr]%andb_prop. now rewrite Hc, IH.
Qed.







(** X1.  A text that holds only characters of [0-9.-] and at most one
    decimal point goes through [validateInput] unchanged, so sanitizing a
    second time changes nothing. *)
Theorem sanitized_fixed_point (v w : string) :
  numeric_shape v ->
  sanitized v = v /\ sanitized (sanitized w) = sanitized w.
Proof.
  assert (H : forall u, numeric_shape u -> sanitized u = u).
  { intros u [Hc Hd]. rewrite sanitized_keep_first_dot.
    rewrite replace_non_numeric_fixed by exact Hc.
    now apply keep_first_dot_few. }
  intros Hv. split; [now apply H | apply H, sanitized_numeric_shape].
Qed.

Lemma sanitized_fixed_point_witness :
  sanitized "-12.5" = "-12.5" /\ sanitized (sanitized "1.2.3") = sanitized "1.2.3".
Proof.
  apply (sanitized_fixed_point "-12.5" "1.2.3").
  split; [reflexivity | simpl; lia].
Defined.


(** ** What an input event leaves alone *)

Lemma updateButtonState_frame (s : page) :
  number1Input_value (updateButtonState s) = number1Input_value s
  /\ number2Input_value (updateButtonState s) = number2Input_value s
  /\ addButton_textContent (updateButtonState s) = addButton_textContent s
  /\ resultDiv_textContent (updateButtonState s) = resultDiv_textContent s
  /\ resultDiv_className (updateButtonState s) = resultDiv_className s
  /\ fetched (updateButtonState s) = fetched s.
Proof.
  unfold updateButtonState. cbv zeta.
  match goal with |- context [if ?c then _ else _] => destruct c end; now repeat split.
Qed.

(** X3.  An input event rewrites the text of the edited field and the
    disabled flag of the button and nothing else: the other field, the
    label of the button, the result line and the requests sent are as
    before. *)
Theorem input_event_frame (raw : string) (s : page) :
  let s1 := step (Edit number1Input raw) s in
  let s2 := step (Edit number2Input raw) s in
  (number2Input_value s1 = number2Input_value s
   /\ addButton_textContent s1 = addButton_textContent s
   /\ resultDiv_textContent s1 = resultDiv_textContent s
   /\ resultDiv_className s1 = resultDiv_className s
   /\ fetched s1 = fetched s)
  /\ (number1Input_value s2 = number1Input_value s
      /\ addButton_textContent s2 = addButton_textContent s
      /\ resultDiv_textContent s2 = resultDiv_textContent s
      /\ resultDiv_className s2 = resultDiv_className s
      /\ fetched s2 = fetched s).
Proof.
  cbv zeta. cbn [step]. unfold validateInput. cbv zeta.
  split.
  - destruct (updateButtonState_frame
                (set_value number1Input
                   (sanitized (value number1Input (set_value number1Input raw s)))
                   (set_value number1Input raw s)))
      as (_ & -> & -> & -> & -> & ->).
    now repeat split.
  - destruct (updateButtonState_frame
                (set_value number2Input
                   (sanitized (value number2Input (set_value number2Input raw s)))
                   (set_value number2Input raw s)))
      as (-> & _ & -> & -> & -> & ->).
    now repeat split.
Qed.

(** ** The response to /add *)

Lemma result_line_finally (text className : string) (s : page) :
  result_line text className s ->
  result_line text className
    (updateButtonState (set_addButton_textContent "Add" (set_addButton_disabled false s))).
Proof.
  unfold result_line. intros [H1 H2].
  destruct (updateButtonState_frame
              (set_addButton_textContent "Add" (set_addButton_disabled false s)))
    as (_ & _ & _ & -> & -> & _).
  now split.
Qed.

(** X4.  What the result line shows once the request has settled.  A
    rejected fetch, a status outside 200..299, a body that is not JSON and
    a body that is JSON null all give the one failure message in the
    error style; any other 2xx body gives [Result: ] followed by the text
    of its [result] property in the plain style. *)
Theorem add_response_handling (e : exn) (status : nat)
        (json : completion (option string)) (s : page) :
  let failure := "Failed to calculate. Please check if the server is running." in
  result_line failure "result show error" (handleAddition_resume (Rejected e) s)
  /\ match (if status_ok status then json else Throw e) with
     | Normal (Some result) =>
         result_line ("Result: " ++ result) "result show"
                     (handleAddition_resume (Responded status json) s)
     | _ =>
         result_line failure "result show error"
                     (handleAddition_resume (Responded status json) s)
     end.
Proof.
  cbv zeta. unfold handleAddition_resume, handleAddition_try. cbv zeta. split.
  - now apply result_line_finally.
  - destruct (status_ok status); cbn [negb]; [|now apply result_line_finally].
    destruct json as [[result|]|e']; cbn [bind]; now apply result_line_finally.
Qed.

(** ** Requests *)

Lemma fetched_handleAddition (s : page) :
  fetched (fst (handleAddition s))
  = if parses (number1Input_value s) && parses (number2Input_value s)
    then (fetched s ++ [add_request (parseFloat (number1Input_value s))
                                    (parseFloat (number2Input_value s))])%list
    else fetched s.
Proof.
  unfold handleAddition, parses. cbv zeta. rewrite <- negb_orb.
  now destruct (isNaN _ || isNaN _).
Qed.

Lemma fetched_handleAddition_resume (o : fetch_outcome) (s : page) :
  fetched (handleAddition_resume o s) = fetched s.
Proof.
  unfold handleAddition_resume. cbv zeta.
  match goal with |- fetched (updateButtonState ?p) = _ =>
    destruct (updateButtonState_frame p) as (_ & _ & _ & _ & _ & ->) end.
  destruct (handleAddition_try o s) as [s'|e] eqn:E; [|reflexivity].
  unfold handleAddition_try in E. destruct o as [e|status json]; [discriminate|].
  destruct (negb (status_ok status)); [discriminate|].
  destruct json as [[result|]|e]; try discriminate.
  now injection E as <-.
Qed.

(** X5.  The Enter key sends the request whenever both fields parse, also
    while the Add button is disabled; any other key does nothing.  The
    body holds the two parsed numbers as [JSON.stringify] writes them: a
    field that parses to an infinity goes out as null. *)
Theorem enter_sends_whatever_the_button (key : string) (s : page) :
  parses (number1Input_value s) = true ->
  parses (number2Input_value s) = true ->
  key <> "Enter" ->
  fetched (step (KeyPress "Enter") s)
  = (fetched s
     ++ [mkRequest (API_BASE_URL ++ "/add") "POST" "application/json"
                   (JSON_stringify_number (parseFloat (number1Input_value s)))
                   (JSON_stringify_number (parseFloat (number2Input_value s)))])%list
  /\ handleKeyPress "Enter" s = handleAddition s
  /\ step (KeyPress key) s = s.
Proof.
  intros H1 H2 Hk. split; [|split].
  - cbn [step]. change (handleKeyPress "Enter" s) with (handleAddition s).
    now rewrite fetched_handleAddition, H1, H2.
  - reflexivity.
  - cbn [step]. unfold handleKeyPress.
    apply String.eqb_neq in Hk. now rewrite Hk.
Qed.

Lemma enter_sends_witness :
  addButton_disabled (step (KeyPress "Enter") page_with_numbers) = true
  /\ List.length (fetched (step (KeyPress "Enter")
                                (step (KeyPress "Enter") page_with_numbers))) = 2%nat
  /\ map body_number1 (fetched (step (KeyPress "Enter") page_with_overflow))
     = [json_null]
  /\ map body_number2 (fetched (step (KeyPress "Enter") page_with_overflow))
     = [json_finite false 1 0].
Proof.
  split; [reflexivity|].
  destruct (enter_sends_whatever_the_button
              "a" (step (KeyPress "Enter") page_with_numbers)) as (H & _ & _).
  - reflexivity.
  - reflexivity.
  - discriminate.
  - destruct (enter_sends_whatever_the_button "a" page_with_overflow)
      as (H' & _ & _).
    + reflexivity.
    + reflexivity.
    + discriminate.
    + rewrite H, H'. vm_compute. repeat split.
Defined.

Lemma step_requests (e : event) (s : page) :
  fetched (step e s) = fetched s
  \/ (parses (number1Input_value s) = true
      /\ parses (number2Input_value s) = true
      /\ fetched (step e s)
         = (fetched s ++ [add_request (parseFloat (number1Input_value s))
                                      (parseFloat (number2Input_value s))])%list).
Proof.
  assert (Hadd : fetched (fst (handleAddition s)) = fetched s
                 \/ (parses (number1Input_value s) = true
                     /\ parses (number2Input_value s) = true
                     /\ fetched (fst (handleAddition s))
                        = (fetched s
                           ++ [add_request (parseFloat (number1Input_value s))
                                           (parseFloat (number2Input_value s))])%list)).
  { rewrite fetched_handleAddition.
    destruct (parses (number1Input_value s)) eqn:H1; [|now left].
    destruct (parses (number2Input_value s)) eqn:H2; [|now left].
    right. now repeat split. }
  destruct e as [target raw|key| |o]; cbn [step].
  - left. destruct target.
    + now destruct (input_event_frame raw s) as [(_ & _ & _ & _ & H) _].
    + now destruct (input_event_frame raw s) as [_ (_ & _ & _ & _ & H)].
  - unfold handleKeyPress. destruct (String.eqb key "Enter"); [exact Hadd | now left].
  - destruct (addButton_disabled s); [now left | exact Hadd].
  - left. apply fetched_handleAddition_resume.
Qed.

(** X6.  The calculator sends only to /add and never retries: along any
    run every request is a POST to /add with a JSON body, a single event
    sends at most one request, an event sends one only from a page whose
    two fields both parse, and the part of the handler that runs when a
    request settles sends none. *)
Theorem requests_are_well_formed (es : list event) (e : event)
        (o : fetch_outcome) (s : page) :
  Forall well_formed_request (fetched s) ->
  Forall well_formed_request (fetched (run es s))
  /\ (List.length (fetched (step e s)) <= S (List.length (fetched s)))%nat
  /\ (fetched (step e s) = fetched s
      \/ inputs_valid s = true)
  /\ fetched (handleAddition_resume o s) = fetched s.
Proof.
  intros H. split; [|split; [|split]].
  - revert s H. induction es as [|e' es IH]; intros s H; [exact H|].
    cbn [run fold_left]. apply IH.
    destruct (step_requests e' s) as [-> | (_ & _ & ->)]; [exact H|].
    apply Forall_app. split; [exact H|]. constructor; [|constructor].
    now repeat split.
  - destruct (step_requests e s) as [-> | (_ & _ & ->)]; [lia|].
    rewrite length_app. simpl. lia.
  - destruct (step_requests e s) as [Hs | (H1 & H2 & _)]; [now left|].
    right. unfold inputs_valid.
    now rewrite H1, H2, !parses_nonblank.
  - apply fetched_handleAddition_resume.
Qed.

Lemma requests_witness :
  Forall well_formed_request
         (fetched (run [Edit number1Input "7"; KeyPress "Enter"; Click;
                        Settle (Rejected TypeError)]
                       (step (KeyPress "Enter") page_with_numbers)))
  /\ List.length
       (fetched (run [Edit number1Input "7"; KeyPress "Enter"; Click;
                      Settle (Rejected TypeError)]
                     (step (KeyPress "Enter") page_with_numbers))) = 2%nat.
Proof.
  split; [|reflexivity].
  apply (requests_are_well_formed
           [Edit number1Input "7"; KeyPress "Enter"; Click; Settle (Rejected TypeError)]
           Click (Rejected TypeError) (step (KeyPress "Enter") page_with_numbers)).
  constructor; [|constructor]. now repeat split.
Defined.

End CalculatorBehaviour.

(* ===================================================================== *)
(** * The resume page: further behaviour *)
(* ===================================================================== *)

Module ResumeBehaviour.

Import JsFacts Resume ResumeFacts.

(** ** Entries *)

(** X13.  A certification entry holds the lines of its name and issuer,
    each only when it is there and not empty.  A project entry holds the
    lines of its name and description in the same way and then the
    technologies joined by a comma and a space; an empty [technologies]
    array gives no such line, and a missing one makes the renderer
    throw. *)
Theorem certification_and_project_entries (cert : Certification)
        (project : Project) (html : string) :
  certification_entry cert html
  = Normal (html ++ div_open "data-item"
                 ++ optional_line "Certification:" (cert_name cert)
                 ++ optional_line "Issuer:" (cert_issuer cert)
                 ++ "</div>")
  /\ project_entry project html
     = match project_technologies project with
       | None => Throw TypeError
       | Some technologies =>
           Normal (html ++ div_open "data-item"
                        ++ optional_line "Project:" (project_name project)
                        ++ optional_line "Description:" (project_description project)
                        ++ match technologies with
                           | [] => EmptyString
                           | _ :: _ =>
                               "<div>" ++ span_open "data-label"
                               ++ "Technologies:</span> "
                               ++ join ", " technologies ++ "</div>"
                           end
                        ++ "</div>")
       end.
Proof.
  split; [apply certification_entry_item|].
  rewrite project_entry_item. unfold project_item.
  destruct (project_technologies project) as [[|t l]|]; reflexivity.
Qed.

(** ** The whole output *)

Ltac present :=
  repeat match goal with
         | Hx : ?b = true |- context [?b] => rewrite Hx
         end.

Lemma rendered_blocks (data : ResumeData) :
  arrays_present data = true ->
  displayResumeData_html (Some data)
  = Normal (emitted data PersonalInformation ++ emitted data Summary
            ++ emitted data EducationCategory ++ emitted data WorkExperienceCategory
            ++ emitted data Skills ++ emitted data Projects
            ++ emitted data Certifications ++ emitted data Languages).
Proof.
  unfold arrays_present. intros H.
  repeat (apply andb_prop in H as [H ?]).
  unfold displayResumeData_html. cbv zeta.
  rewrite personal_information_emitted. present. cbn [bind].
  rewrite summary_block_emitted. cbn [bind].
  rewrite education_block_emitted. present. cbn [bind].
  rewrite work_experience_block_emitted. present. cbn [bind].
  rewrite skills_block_emitted. present. cbn [bind].
  rewrite projects_block_emitted. present. cbn [bind andb].
  rewrite certifications_block_emitted. present. cbn [bind].
  rewrite languages_block_emitted. present.
  rewrite !append_assoc. reflexivity.
Qed.

(** X14.  The summary goes into the markup as it is, with no escaping:
    the output is the personal information section, the opening of the
    summary section, the text of the summary character for character, and
    the rest. *)
Theorem summary_is_not_escaped (data : ResumeData) :
  arrays_present data = true ->
  truthy (summary data) = true ->
  exists rest,
    displayResumeData_html (Some data)
    = Normal (emitted data PersonalInformation
              ++ div_open "data-section"
              ++ div_open "section-title" ++ "Summary</div>"
              ++ div_open "data-item" ++ to_string (summary data)
              ++ "</div></div>" ++ rest).
Proof.
  intros Ha Hs. rewrite (rendered_blocks data Ha). eexists.
  unfold emitted at 2. cbn [nonempty]. rewrite Hs.
  unfold section. cbn [title section_body].
  rewrite !append_assoc. reflexivity.
Qed.

Lemma summary_is_not_escaped_witness :
  exists html,
    displayResumeData_html (Some resume_with_markup) = Normal html
    /\ includes html "<img src=x onerror=alert(1)>" = true.
Proof.
  destruct (summary_is_not_escaped resume_with_markup) as [rest H].
  - reflexivity.
  - reflexivity.
  - eexists. split; [exact H|]. vm_compute in H. injection H as <-. reflexivity.
Defined.

(** X15.  A payload with every array there, all of them empty, and no
    name and no summary renders as the empty string, and the result
    section is shown all the same. *)
Theorem empty_resume_renders_nothing (data : ResumeData) (s : page) :
  arrays_present data = true ->
  existsb (nonempty data) categories = false ->
  displayResumeData_html (Some data) = Normal EmptyString
  /\ displayResumeData (Some data) s
     = Normal (set_resultSection_display "block"
                 (set_resumeData_innerHTML EmptyString s)).
Proof.
  intros Ha He.
  assert (H : displayResumeData_html (Some data) = Normal EmptyString).
  { rewrite (rendered_blocks data Ha). unfold emitted.
    unfold categories in He. cbn [existsb] in He.
    repeat (apply orb_false_elim in He as [?H He]).
    now rewrite H, H0, H1, H2, H3, H4, H5, H6. }
  split; [exact H|]. unfold displayResumeData. now rewrite H.
Qed.

Lemma empty_resume_witness :
  displayResumeData (Some empty_resume) example_page
  = Normal (set_resultSection_display "block"
              (set_resumeData_innerHTML EmptyString example_page)).
Proof.
  apply (empty_resume_renders_nothing empty_resume example_page); reflexivity.
Defined.

(** ** The settled request on the page *)

(** X12.  One parse action, from the click to the settled request with
    nothing in between, ends with exactly one of the result section and
    the error box on show: the result section with the new markup when
    the response renders, and otherwise the error box with the result
    section hidden. *)
Theorem result_or_error (file : File) (o : fetch_outcome) (s : page) :
  selectedFile s = Some file ->
  let s' := handleParse_resume o (fst (handleParse s)) in
  match rendered o with
  | Some html =>
      resultSection_display s' = "block" /\ error_display s' = "none"
      /\ resumeData_innerHTML s' = html
  | None =>
      resultSection_display s' = "none" /\ error_display s' = "block"
      /\ resumeData_innerHTML s' = resumeData_innerHTML s
  end.
Proof.
  intros H. cbv zeta. unfold handleParse. rewrite H. cbn [fst].
  unfold handleParse_resume, handleParse_try, rendered. cbv zeta.
  destruct o as [e|status json]; [now destruct s|].
  destruct (status_ok status); cbn [negb andb]; [|destruct json as [[?|]|?]; now destruct s].
  destruct json as [[data|]|e]; cbn [bind]; try now destruct s.
  destruct (success data); [|now destruct s].
  unfold displayResumeData.
  destruct (displayResumeData_html (resume_data data)); cbn [bind]; now destruct s.
Qed.

Lemma result_or_error_witness :
  resultSection_display
    (handleParse_resume
       (Responded 200 (Normal (Some (mkResponse true None (Some acme_resume)))))
       (fst (handleParse page_with_pdf))) = "block"
  /\ error_display
       (handleParse_resume (Rejected TypeError) (fst (handleParse page_with_pdf)))
     = "block".
Proof.
  split.
  - apply (result_or_error small_pdf
             (Responded 200 (Normal (Some (mkResponse true None (Some acme_resume)))))
             page_with_pdf).
    reflexivity.
  - apply (result_or_error small_pdf (Rejected TypeError) page_with_pdf).
    reflexivity.
Defined.

(** ** Parsing with nothing selected, and resetting *)

(** X9.  With no file selected [handleParse] shows
    'Please select a file first' and returns: no request is sent, the
    button stays enabled or disabled as it was and the loading indicator
    is not touched. *)
Theorem parse_without_file (s : page) :
  selectedFile s = None ->
  handleParse s = (showError "Please select a file first" s, Returned)
  /\ errorMessage_textContent (fst (handleParse s)) = "Please select a file first"
  /\ error_display (fst (handleParse s)) = "block"
  /\ fetched (fst (handleParse s)) = fetched s
  /\ parseButton_disabled (fst (handleParse s)) = parseButton_disabled s
  /\ loading_display (fst (handleParse s)) = loading_display s.
Proof.
  intros H. unfold handleParse. rewrite H. cbn [fst]. now destruct s.
Qed.

Lemma parse_without_file_witness :
  handleParse example_page
  = (showError "Please select a file first" example_page, Returned).
Proof. apply (parse_without_file example_page). reflexivity. Defined.

(** X10.  [resetUpload] forgets the file and puts the upload area back:
    the file input is cleared, the file info, the error box and the
    result section are hidden.  It leaves the rendered markup, the Parse
    button, the loading indicator and the requests sent alone.  After it
    a click on Parse only asks for a file, and a second reset changes
    nothing. *)
Theorem reset_forgets_the_file (s : page) :
  let s' := resetUpload s in
  selectedFile s' = None
  /\ fileInput_value s' = EmptyString
  /\ uploadArea_display s' = "block"
  /\ fileInfo_display s' = "none"
  /\ error_display s' = "none"
  /\ resultSection_display s' = "none"
  /\ resumeData_innerHTML s' = resumeData_innerHTML s
  /\ parseButton_disabled s' = parseButton_disabled s
  /\ loading_display s' = loading_display s
  /\ fetched s' = fetched s
  /\ handleParse s' = (showError "Please select a file first" s', Returned)
  /\ resetUpload s' = s'.
Proof. cbv zeta. destruct s. now repeat split. Qed.

Section Files.

Variable formatFileSize : N -> string.

Lemma processFile_frame (file : File) (s : page) :
  uploadArea_dragover (processFile formatFileSize file s) = uploadArea_dragover s
  /\ fetched (processFile formatFileSize file s) = fetched s
  /\ parseButton_disabled (processFile formatFileSize file s) = parseButton_disabled s
  /\ resumeData_innerHTML (processFile formatFileSize file s) = resumeData_innerHTML s
  /\ loading_display (processFile formatFileSize file s) = loading_display s.
Proof.
  unfold processFile.
  destruct (negb (includes (file_type file) "pdf")); [now destruct s|].
  destruct (maxSize <? file_size file)%N; now destruct s.
Qed.

(** X7.  A file whose type contains [pdf] and whose size is at most
    10 * 1024 * 1024 is taken: it becomes [selectedFile] in place of any
    earlier one, its name and formatted size are shown, the upload area
    gives way to the file info, and the error box and the result section
    are hidden.  No request is sent and the Parse button, the loading
    indicator and the rendered markup are left alone. *)
Theorem accepted_file_is_selected (file : File) (s : page) :
  acceptable file ->
  let s' := processFile formatFileSize file s in
  selectedFile s' = Some file
  /\ fileName_textContent s' = file_name file
  /\ fileSize_textContent s' = formatFileSize (file_size file)
  /\ uploadArea_display s' = "none"
  /\ fileInfo_display s' = "flex"
  /\ error_display s' = "none"
  /\ resultSection_display s' = "none"
  /\ fetched s' = fetched s
  /\ parseButton_disabled s' = parseButton_disabled s
  /\ loading_display s' = loading_display s
  /\ resumeData_innerHTML s' = resumeData_innerHTML s.
Proof.
  intros [Ht Hs]. cbv zeta. unfold processFile. rewrite Ht. cbn [negb].
  apply N.ltb_ge in Hs. rewrite Hs. destruct s. now repeat split.
Qed.

(** X8.  A drop always takes the drag highlight off the upload area,
    whether its file is taken, rejected or missing.  Of several files
    dropped or picked only the first is looked at, and an empty list
    selects nothing and shows no error. *)
Theorem drop_takes_first_file (file : File) (others files : list File) (s : page) :
  uploadArea_dragover (handleDrop formatFileSize files s) = false
  /\ handleDrop formatFileSize (file :: others) s
     = processFile formatFileSize file (handleDragLeave s)
  /\ handleFileSelect formatFileSize (file :: others) s
     = processFile formatFileSize file s
  /\ handleDrop formatFileSize [] s = handleDragLeave s
  /\ handleFileSelect formatFileSize [] s = s.
Proof.
  split; [|now repeat split].
  unfold handleDrop. cbv zeta. destruct files as [|f fs]; cbn [List.length Nat.ltb Nat.leb].
  - now destruct s.
  - destruct (processFile_frame f (set_uploadArea_dragover false s)) as [-> _].
    now destruct s.
Qed.

(** ** Uploads *)

Lemma fetched_handleParse (s : page) :
  fetched (fst (handleParse s))
  = match selectedFile s with
    | Some file => (fetched s ++ [upload_of file])%list
    | None => fetched s
    end.
Proof. unfold handleParse. destruct s as [[file|]]; reflexivity. Qed.

Lemma fetched_handleParse_resume (o : fetch_outcome) (s : page) :
  fetched (handleParse_resume o s) = fetched s.
Proof.
  unfold handleParse_resume. cbv zeta.
  destruct (handleParse_try o s) as [s'|e] eqn:E; [|now destruct s].
  transitivity (fetched s'); [now destruct s'|].
  unfold handleParse_try in E. destruct o as [e|status json]; [discriminate|].
  destruct (negb (status_ok status)); [discriminate|].
  destruct json as [[data|]|e]; cbn [bind] in E; try discriminate.
  destruct (success data).
  - unfold displayResumeData in E.
    destruct (displayResumeData_html (resume_data data)); cbn [bind] in E;
      [|discriminate].
    injection E as <-. now destruct s.
  - injection E as <-. now destruct s.
Qed.

Lemma step_uploads (e : event) (s : page) :
  selection_invariant s ->
  fetched (step formatFileSize e s) = fetched s
  \/ exists r, acceptable_upload r
               /\ fetched (step formatFileSize e s) = (fetched s ++ [r])%list.
Proof.
  intros Hs. destruct e as [files| | | |files| |o|]; cbn [step].
  - left. destruct files as [|f fs]; [reflexivity|].
    now destruct (processFile_frame f s) as (_ & H & _).
  - now left.
  - left. now destruct s.
  - left. now destruct s.
  - left. unfold handleDrop. cbv zeta.
    destruct files as [|f fs]; cbn [List.length Nat.ltb Nat.leb]; [now destruct s|].
    destruct (processFile_frame f (set_uploadArea_dragover false s)) as (_ & -> & _).
    now destruct s.
  - destruct (parseButton_disabled s); [now left|].
    rewrite fetched_handleParse. unfold selection_invariant in Hs.
    destruct (selectedFile s) as [file|]; [|now left].
    right. exists (upload_of file). split; [|reflexivity]. now exists file.
  - left. apply fetched_handleParse_resume.
  - left. now destruct s.
Qed.

(** X11.  Every file the page uploads is a PDF-typed file of at most
    10 * 1024 * 1024 bytes: along any run each request is a POST to
    /parse-resume whose form holds one such file under the name [file].
    A single event sends at most one request, and the part of the handler
    that runs when a request settles sends none. *)
Theorem uploads_are_acceptable (es : list event) (e : event) (o : fetch_outcome)
        (s : page) :
  selection_invariant s ->
  Forall acceptable_upload (fetched s) ->
  Forall acceptable_upload (fetched (run formatFileSize es s))
  /\ (List.length (fetched (step formatFileSize e s)) <= S (List.length (fetched s)))%nat
  /\ fetched (handleParse_resume o s) = fetched s.
Proof.
  intros Hs Hf. split; [|split].
  - revert s Hs Hf. induction es as [|e' es IH]; intros s Hs Hf; [exact Hf|].
    cbn [run fold_left]. apply IH; [now apply step_invariant|].
    destruct (step_uploads e' s Hs) as [-> | (r & Hr & ->)]; [exact Hf|].
    apply Forall_app. split; [exact Hf | now constructor].
  - destruct (step_uploads e s Hs) as [-> | (r & _ & ->)]; [lia|].
    rewrite length_app. simpl. lia.
  - apply fetched_handleParse_resume.
Qed.

End Files.

Lemma accepted_file_witness :
  selectedFile (processFile no_format small_pdf example_page) = Some small_pdf
  /\ fetched (processFile no_format small_pdf example_page) = [].
Proof.
  destruct (accepted_file_is_selected no_format small_pdf example_page)
    as (H1 & _ & _ & _ & _ & _ & _ & H8 & _).
  - split; [reflexivity | discriminate].
  - split; [exact H1 | exact H8].
Defined.

Lemma uploads_witness :
  Forall acceptable_upload
         (fetched (run no_format
                       [Drop [large_png]; ParseClick; FileSelect [small_pdf];
                        ParseClick; Settle (Rejected TypeError); ParseClick]
                       example_page)).
Proof.
  apply (uploads_are_acceptable no_format
           [Drop [large_png]; ParseClick; FileSelect [small_pdf];
            ParseClick; Settle (Rejected TypeError); ParseClick]
           ParseClick (Rejected TypeError) example_page).
  - exact I.
  - constructor.
Defined.

End ResumeBehaviour.
